(** * TGAN data preparation ([tgan/data.py]): reversible column encoding

    A shallow embedding of the column transformers and of the [Preprocessor]
    of [tgan/data.py], and the properties of the encoding pipeline.

    Conventions of the embedding.
    - A Python exception is a value of [exn]; a call that may raise returns
      a [result].
    - [numpy] floating point numbers are modelled by exact rationals [Q];
      integer arrays are arrays of integral rationals.  Rounding, infinities
      and NaN are outside the model (a division by zero yields [0] here).
    - [sklearn.mixture.GaussianMixture], [numpy.sqrt] and the conversion of
      a number to [str] are external to the repository: they are the
      members of the class [External]. *)

From Stdlib Require Import QArith.
From stdpp Require Import gmap strings list sorting pretty.

Local Open Scope Q_scope.
Local Open Scope nat_scope.
Local Open Scope string_scope.
Local Open Scope list_scope.

(** ** Exceptions *)

Inductive exn : Type :=
  | ValueError
  | KeyError
  | IndexError
  | TypeError
  | UnboundLocalError
  | AssertionError.

Inductive result (A : Type) : Type :=
  | Ok (a : A)
  | Raise (e : exn).
Arguments Ok {A} a.
Arguments Raise {A} e.

#[global] Instance result_ret : MRet result := λ A a, Ok a.
#[global] Instance result_bind : MBind result := λ A B f m,
  match m with
  | Ok a => f a
  | Raise e => Raise e
  end.
#[global] Instance result_fmap : FMap result := λ A B f m,
  match m with
  | Ok a => Ok (f a)
  | Raise e => Raise e
  end.

(** [o] or raise [e]: a subscript that fails. *)
Definition or_raise {A} (e : exn) (o : option A) : result A :=
  match o with
  | Some a => Ok a
  | None => Raise e
  end.

(** ** Rational helpers *)

Definition Qltb (x y : Q) : bool := (Qnum x * QDen y <? Qnum y * QDen x)%Z.

(** The Python [int] equal to the number [x], when there is one and it is
    not negative: the only keys of a [dict(enumerate(...))] that a numeric
    [x] can hit ([hash(1.0) == hash(1)] and [1.0 == 1]). *)
Definition Q_as_index (x : Q) : option nat :=
  if ((Qnum x mod Zpos (Qden x) =? 0) && (0 <=? Qnum x))%Z
  then Some (Z.to_nat (Qnum x / Zpos (Qden x)))
  else None.

Definition Q_of_nat (n : nat) : Q := inject_Z (Z.of_nat n).

(** ** numpy *)

(** A two dimensional [numpy.ndarray]: [shape1] is [a.shape[1]], [rows]
    has [a.shape[0]] rows of [shape1] entries each. *)
Record ndarray : Type := Array2 { shape1 : nat; rows : list (list Q) }.

(** [l.reshape([-1, 1])] for a one dimensional [l]. *)
Definition reshape_col (l : list Q) : ndarray :=
  Array2 1 ((λ x, [x]) <$> l).

(** [a.flat] *)
Definition flat (a : ndarray) : list Q := concat (rows a).

(** [a[:, j]] *)
Definition column_at (j : nat) (a : ndarray) : result (list Q) :=
  if decide (j < shape1 a)
  then mapM (λ r : list Q, or_raise IndexError (r !! j)) (rows a)
  else Raise IndexError.

(** [a[:, 1:]] *)
Definition columns_from_1 (a : ndarray) : ndarray :=
  Array2 (shape1 a - 1) (drop 1 <$> rows a).

(** [enumerate(l)] *)
Definition enumerate {A} (l : list A) : list (nat * A) := imap pair l.

(** [dict(kvs)] and dict comprehensions: a later binding of a key replaces
    an earlier one. *)
Definition py_dict `{Countable K} {V} (kvs : list (K * V)) : gmap K V :=
  foldl (λ m kv, <[kv.1 := kv.2]> m) ∅ kvs.

(** [np.unique(data)] on an array of strings: the sorted distinct values. *)
Definition np_unique (data : list string) : list string :=
  merge_sort String.le (remove_dups data).

(** [np.argmax(v)] for a one dimensional [v]: the first index of the
    maximum; [ValueError] on an empty sequence. *)
Fixpoint argmax_from (best : nat) (vbest : Q) (i : nat) (v : list Q) : nat :=
  match v with
  | [] => best
  | x :: v' =>
      if Qltb vbest x then argmax_from i x (S i) v'
      else argmax_from best vbest (S i) v'
  end.

Definition np_argmax (v : list Q) : result nat :=
  match v with
  | [] => Raise ValueError
  | x :: v' => Ok (argmax_from 0 x 1 v')
  end.

(** [k] is the index of the maximum of [v], the first one if the maximum
    occurs several times. *)
Definition is_argmax (v : list Q) (k : nat) : Prop :=
  ∃ p, v !! k = Some p
       ∧ (∀ j q, v !! j = Some q → (q <= p)%Q)
       ∧ (∀ j q, j < k → v !! j = Some q → (q < p)%Q).

(** [np.argmax(a, axis=1)] *)
Definition np_argmax_axis1 (a : ndarray) : result (list nat) :=
  if decide (shape1 a = 0) then Raise ValueError
  else mapM np_argmax (rows a).

(** [np.clip(x, lo, hi)] is [minimum(maximum(x, lo), hi)], where the
    maximum of [a] and [b] is [a] when [a > b] and [b] otherwise. *)
Definition np_maximum (a b : Q) : Q := if Qltb b a then a else b.
Definition np_minimum (a b : Q) : Q := if Qltb a b then a else b.
Definition np_clip (x lo hi : Q) : Q := np_minimum (np_maximum x lo) hi.

(** [np.concatenate((a, b), axis=1)] *)
Definition np_concatenate_axis1 (a b : ndarray) : result ndarray :=
  if decide (length (rows a) = length (rows b))
  then Ok (Array2 (shape1 a + shape1 b) (zip_with app (rows a) (rows b)))
  else Raise ValueError.

(** ** Metadata *)

(** The description of one column, a Python [dict]: the key ["type"] and
    the keys that the two kinds of column carry.  A key that is absent is
    [None], and reading it raises [KeyError]. *)
Record column_info : Type := ColumnInfo {
  type_ : string;
  means : option (list Q);
  stds : option (list Q);
  mapping : option (list string);
  n : option nat
}.

Record Metadata : Type := MkMetadata {
  num_features : nat;
  details : list column_info
}.

Definition value_info (ms ss : list Q) (k : nat) : column_info :=
  ColumnInfo "value" (Some ms) (Some ss) None (Some k).

Definition category_info (m : list string) (k : nat) : column_info :=
  ColumnInfo "category" None None (Some m) (Some k).

(** [check_metadata] *)
Definition check_metadata (metadata : Metadata) : result () :=
  if forallb (λ item, bool_decide (type_ item ∈ ["category"; "value"]))
       (details metadata)
  then Ok ()
  else Raise AssertionError.

(** The test of the decorator [check_inputs]: the argument is an array of
    shape [(n, 1)]. *)
Definition check_inputs (data : ndarray) : result () :=
  if decide (shape1 data = 1) then Ok () else Raise ValueError.

(** ** CategoricalTransformer *)

Module CategoricalTransformer.

Definition transform (data : list string)
    : result (ndarray * list string * nat) :=
  let unique_values := np_unique data in
  let value_mapping : gmap string nat :=
    py_dict (prod_swap <$> enumerate unique_values) in
  v ← mapM (λ x, or_raise KeyError (value_mapping !! x)) data;
  let features := reshape_col (Q_of_nat <$> v) in
  Ok (features, unique_values, length unique_values).

Definition reverse_transform (data : ndarray) (info : column_info)
    : result (list string) :=
  _ ← check_inputs data;
  mapping ← or_raise KeyError (mapping info);
  let id2str : gmap nat string := py_dict (enumerate mapping) in
  mapM (λ x, or_raise KeyError (Q_as_index x ≫= (id2str !!.))) (flat data).

End CategoricalTransformer.

(** ** External collaborators *)

(** A fitted [sklearn.mixture.GaussianMixture] on one feature: the means
    and the covariances of its components, and the responsibilities
    [predict_proba] computes for one sample (one row of the data). *)
Record GaussianMixture : Type := MkGaussianMixture {
  means_ : list Q;
  covariances_ : list Q;
  predict_proba : list Q → list Q
}.

Class External : Type := MkExternal {
  (** [GaussianMixture(k).fit(data)], which may raise. *)
  GaussianMixture_fit : nat → ndarray → result GaussianMixture;
  (** [np.sqrt] *)
  np_sqrt : Q → Q;
  (** [str(x)] for a number [x], as [Series.astype(str)] does. *)
  str_of_number : Q → string
}.

(** [for x in l: s = body(s, x)], where the body may raise. *)
Fixpoint for_each {S A} (body : S → A → result S) (l : list A) (s : S)
    : result S :=
  match l with
  | [] => Ok s
  | x :: l' => s' ← body s x; for_each body l' s'
  end.

(** ** MultiModalNumberTransformer *)

Module MultiModalNumberTransformer.

Record t : Type := Build { num_modes : nat }.

(** [__init__(self, num_modes=5)] with the default argument. *)
Definition init : t := Build 5.

(** [l.reshape((1, k))] *)
Definition reshape_row (l : list Q) (k : nat) : result (list Q) :=
  if decide (length l = k) then Ok l else Raise ValueError.

Definition clip_lo : Q := - (99 # 100).
Definition clip_hi : Q := 99 # 100.

Section with_external.
Context `{External}.

Definition transform (self : t) (data : ndarray)
    : result (ndarray * ndarray * list Q * list Q) :=
  _ ← check_inputs data;
  model ← GaussianMixture_fit (num_modes self) data;
  means ← reshape_row (means_ model) (num_modes self);
  stds ← reshape_row (np_sqrt <$> covariances_ model) (num_modes self);
  xs ← column_at 0 data;
  let features :=
    (λ x, zip_with (λ m s, (x - m) / (2 * s))%Q means stds) <$> xs in
  let probs := Array2 (num_modes self) (predict_proba model <$> rows data) in
  argmax ← np_argmax_axis1 probs;
  features ← mapM (λ rk : list Q * nat, or_raise IndexError (rk.1 !! rk.2))
                  (zip features argmax);
  let features := reshape_col ((λ v, np_clip v clip_lo clip_hi) <$> features) in
  Ok (features, probs, means, stds).

End with_external.

Definition reverse_transform (self : t) (data : ndarray) (info : column_info)
    : result (list Q) :=
  features ← column_at 0 data;
  let probs := columns_from_1 data in
  p_argmax ← np_argmax_axis1 probs;
  mean ← or_raise KeyError (means info);
  std ← or_raise KeyError (stds info);
  select_mean ← mapM (λ k, or_raise IndexError (mean !! k)) p_argmax;
  select_std ← mapM (λ k, or_raise IndexError (std !! k)) p_argmax;
  Ok (zip_with (λ f sm, f * 2 * sm.1 + sm.2)%Q features (zip select_std select_mean)).

End MultiModalNumberTransformer.

(** ** Tables *)

(** A column of a [pandas.DataFrame]: numbers, or text. *)
Inductive column : Type :=
  | NumColumn (values : list Q)
  | StrColumn (values : list string).

Definition column_length (c : column) : nat :=
  match c with
  | NumColumn l => length l
  | StrColumn l => length l
  end.

(** A [DataFrame] is its columns by integer label; [data.shape[1]] is the
    number of columns and [data[i]] the column labelled [i]. *)
Abbreviation DataFrame := (gmap nat column).

(** The transformed table: blocks by key. *)
Abbreviation TransformedTable := (gmap string ndarray).

(** [data[i].values.reshape([-1, 1])].  A column of text gives an array
    that is not numeric, on which the mixture model raises. *)
Definition values_reshape_col (c : column) : result ndarray :=
  match c with
  | NumColumn l => Ok (reshape_col l)
  | StrColumn _ => Raise ValueError
  end.

(** [data[i].astype(str).values] *)
Definition astype_str `{External} (c : column) : list string :=
  match c with
  | NumColumn l => str_of_number <$> l
  | StrColumn l => l
  end.

(** ['f%02d' % i] *)
Definition fkey (i : nat) : string :=
  "f" +:+ (if decide (i < 10) then "0" +:+ pretty i else pretty i).

(** [pd.DataFrame(dict(enumerate(table)))]: the columns must have the same
    length. *)
Definition pd_DataFrame (table : list column) : result DataFrame :=
  match table with
  | [] => Ok ∅
  | c :: _ =>
      if forallb (λ c', bool_decide (column_length c' = column_length c)) table
      then Ok (py_dict (enumerate table))
      else Raise ValueError
  end.

(** The table that the loop builds from blocks [rs] for the columns [l]. *)
Definition store_blocks (tbl : TransformedTable) (l : list nat)
    (rs : list (ndarray * column_info)) : TransformedTable :=
  foldl (λ m ir, <[fkey ir.1 := ir.2.1]> m) tbl (zip l rs).

(** ** Preprocessor *)

Module Preprocessor.

(** The attributes that vary; [continous_transformer] and
    [categorical_transformer] are the default transformers throughout. *)
Record t : Type := Build {
  continuous_columns : list nat;
  metadata : option Metadata
}.

Definition init (continuous_columns : option (list nat))
    (metadata : option Metadata) : t :=
  Build (default [] continuous_columns) metadata.

Definition continous_transformer : MultiModalNumberTransformer.t :=
  MultiModalNumberTransformer.init.

Section with_external.
Context `{External}.

(** The body of the loop of [fit_transform] on the locals
    [(transformed_data, details)]. *)
Definition fit_transform_body (self : t) (data : DataFrame)
    (locals : TransformedTable * list column_info) (i : nat)
    : result (TransformedTable * list column_info) :=
  let '(transformed_data, details) := locals in
  if decide (i ∈ continuous_columns self) then
    col ← or_raise KeyError (data !! i);
    column_data ← values_reshape_col col;
    '(features, probs, means, stds) ←
      MultiModalNumberTransformer.transform continous_transformer column_data;
    let details := details ++ [value_info means stds 5] in
    block ← np_concatenate_axis1 features probs;
    Ok (<[fkey i := block]> transformed_data, details)
  else
    col ← or_raise KeyError (data !! i);
    let column_data := astype_str col in
    '(features, mapping, n) ← CategoricalTransformer.transform column_data;
    Ok (<[fkey i := features]> transformed_data,
        details ++ [category_info mapping n]).

(** A method returns its result, or the exception it raises, and the
    instance as it leaves it. *)
Definition fit_transform (self : t) (data : DataFrame) (fitting : bool)
    : result TransformedTable * t :=
  let num_cols := size data in
  match for_each (fit_transform_body self data) (seq 0 num_cols) (∅, []) with
  | Raise e => (Raise e, self)
  | Ok (transformed_data, details) =>
      let self' :=
        if fitting
        then Build (continuous_columns self)
                   (Some (MkMetadata num_cols details))
        else self in
      (Ok transformed_data, self')
  end.

Definition transform (self : t) (data : DataFrame)
    : result TransformedTable * t :=
  fit_transform self data false.

Definition fit (self : t) (data : DataFrame) : result () * t :=
  let '(r, self') := fit_transform self data true in
  ((λ _, ()) <$> r, self').

(** The block and the description that one turn of the loop of
    [fit_transform] computes for column [i]: the loop body stores them
    under [fkey i] and at the end of [details]. *)
Definition fit_column (self : t) (data : DataFrame) (i : nat)
    : result (ndarray * column_info) :=
  if decide (i ∈ continuous_columns self) then
    col ← or_raise KeyError (data !! i);
    column_data ← values_reshape_col col;
    '(features, probs, means, stds) ←
      MultiModalNumberTransformer.transform continous_transformer column_data;
    block ← np_concatenate_axis1 features probs;
    Ok (block, value_info means stds 5)
  else
    col ← or_raise KeyError (data !! i);
    '(features, mapping, n) ←
      CategoricalTransformer.transform (astype_str col);
    Ok (features, category_info mapping n).

End with_external.

(** The body of the loop of [reverse_transform] on the locals
    [(column, table)]; [column] is unbound until a branch assigns it. *)
Definition reverse_transform_body (md : Metadata) (data : TransformedTable)
    (locals : option column * list column) (i : nat)
    : result (option column * list column) :=
  let '(column, table) := locals in
  column_data ← or_raise KeyError (data !! fkey i);
  column_metadata ← or_raise IndexError (details md !! i);
  column ←
    (if decide (type_ column_metadata = "value") then
       c ← MultiModalNumberTransformer.reverse_transform
             continous_transformer column_data column_metadata;
       Ok (Some (NumColumn c))
     else Ok column);
  column ←
    (if decide (type_ column_metadata = "category") then
       c ← CategoricalTransformer.reverse_transform column_data column_metadata;
       Ok (Some (StrColumn c))
     else Ok column);
  c ← or_raise UnboundLocalError column;
  Ok (Some c, table ++ [c]).

Definition reverse_transform (self : t) (data : TransformedTable)
    : result DataFrame :=
  md ← or_raise TypeError (metadata self);
  locals ← for_each (reverse_transform_body md data)
                    (seq 0 (num_features md)) (None, []);
  pd_DataFrame locals.2.

End Preprocessor.

(** ** The reading of [transform] that reuses the fitted vocabulary *)

Module Spec.

(** The specification describes a [transform] that re-applies the fitted
    transform of a column, "reusing stored means/stds/mapping rather than
    re-fitting".  For a categorical column this is: every value of the new
    column is encoded by its index in the [mapping] stored at fit time. *)
Definition encode_with_mapping (mapping : list string) (data : list string)
    : result ndarray :=
  v ← mapM (λ x, or_raise KeyError
                   (fst <$> list_find (λ y, y = x) mapping)) data;
  Ok (reshape_col (Q_of_nat <$> v)).

End Spec.

(** The column that one turn of the loop of [reverse_transform] appends for
    position [i] when the type of its description is ["value"] or
    ["category"]. *)
Definition reverse_column (md : Metadata) (data : TransformedTable) (i : nat)
    : result column :=
  column_data ← or_raise KeyError (data !! fkey i);
  column_metadata ← or_raise IndexError (details md !! i);
  if decide (type_ column_metadata = "value") then
    NumColumn <$> MultiModalNumberTransformer.reverse_transform
                    Preprocessor.continous_transformer column_data column_metadata
  else
    StrColumn <$> CategoricalTransformer.reverse_transform
                    column_data column_metadata.

(** ** npz_to_csv *)

(** The loop body of [npz_to_csv] on the locals [(column, table)], for the
    metadata and the arrays that [np.load] and [json.loads] give. *)
Definition npz_to_csv_body (metadata : Metadata) (data : TransformedTable)
    (locals : option column * list column) (i : nat)
    : result (option column * list column) :=
  let continous_transformer := MultiModalNumberTransformer.init in
  let '(column, table) := locals in
  column_data ← or_raise KeyError (data !! fkey i);
  column_metadata ← or_raise IndexError (details metadata !! i);
  column ←
    (if decide (type_ column_metadata = "value") then
       c ← MultiModalNumberTransformer.reverse_transform
             continous_transformer column_data column_metadata;
       Ok (Some (NumColumn c))
     else Ok column);
  column ←
    (if decide (type_ column_metadata = "category") then
       c ← CategoricalTransformer.reverse_transform column_data column_metadata;
       Ok (Some (StrColumn c))
     else Ok column);
  c ← or_raise UnboundLocalError column;
  Ok (Some c, table ++ [c]).

(** [npz_to_csv] between reading the archive and writing the file: from
    the metadata and the arrays of the archive to the [DataFrame] that is
    written. *)
Definition npz_to_csv (metadata : Metadata) (data : TransformedTable)
    : result DataFrame :=
  _ ← check_metadata metadata;
  locals ← for_each (npz_to_csv_body metadata data)
                    (seq 0 (num_features metadata)) (None, []);
  pd_DataFrame locals.2.

(** ** NpDataFlow *)

(** What is handed to [NpDataFlow] as [data]: the transformed table, or,
    from [load_data] without preprocessing, the raw table, whose integer
    labels no string key matches. *)
Inductive dataset : Type :=
  | Transformed (tbl : TransformedTable)
  | Raw (df : DataFrame).

(** [data[key]] for a string [key]. *)
Definition dataset_getitem (d : dataset) (key : string) : result ndarray :=
  match d with
  | Transformed tbl => or_raise KeyError (tbl !! key)
  | Raw _ => Raise KeyError
  end.

(** What [np.asarray(a, dtype='int32')] makes of an entry whose integer
    part does not fit in 32 bits.  numpy leaves this to the type of the
    array that is cast and to the platform (an array of integers wraps
    around, an array of floats does not), so it is taken as given, for each
    column of the table. *)
Class Int32Overflow : Type := int32_out_of_range : nat → Q → Q.

(** The integer part of a number, rounding toward zero. *)
Definition integer_part (x : Q) : Z := (Qnum x ÷ Zpos (Qden x))%Z.

Definition fits_int32 (x : Q) : bool :=
  ((- 2 ^ 31 <=? integer_part x) && (integer_part x <? 2 ^ 31))%Z.

(** The cast of one entry by [np.asarray(a, dtype='int32')]: the fraction
    is dropped; [out_of_range] gives the result for an entry that does not
    fit. *)
Definition int32 (out_of_range : Q → Q) (x : Q) : Q :=
  if fits_int32 x then inject_Z (integer_part x) else out_of_range x.

(** [np.asarray(a, dtype='int32')] *)
Definition asarray_int32 (out_of_range : Q → Q) (a : ndarray) : ndarray :=
  Array2 (shape1 a) ((λ r : list Q, int32 out_of_range <$> r) <$> rows a).

(** [a[:, :1]] *)
Definition columns_to_1 (a : ndarray) : ndarray :=
  Array2 (shape1 a `min` 1) (take 1 <$> rows a).

(** [zip] of the unpacked lists, as a list: the tuples of the entries at the
    same position, as many as the shortest list has. *)
Fixpoint zip_star {A} (ls : list (list A)) : list (list A) :=
  match ls with
  | [] => []
  | [l] => (λ x, [x]) <$> l
  | l :: ls' => zip_with cons l (zip_star ls')
  end.

(** [metadata['num_features']] *)
Definition metadata_num_features (md : Metadata) : nat := num_features md.

Module NpDataFlow.

(** A row of [self.data]: one row of each array, in column order. *)
Abbreviation row := (list (list Q)).

Record t : Type := Build {
  shuffle : bool;
  metadata : Metadata;
  num_features : nat;
  data : list row
}.

Section with_overflow.
Context `{Int32Overflow}.

(** The body of the loop of [__init__] on [self.data]. *)
Definition init_body (data : dataset) (self_data : list ndarray)
    (c : nat * column_info) : result (list ndarray) :=
  let '(column_id, column_info) := c in
  if decide (type_ column_info = "value") then
    col_data ← dataset_getitem data (fkey column_id);
    let value := columns_to_1 col_data in
    let cluster := columns_from_1 col_data in
    Ok ((self_data ++ [value]) ++ [cluster])
  else if decide (type_ column_info = "category") then
    col_data ← asarray_int32 (int32_out_of_range column_id)
                 <$> dataset_getitem data (fkey column_id);
    Ok (self_data ++ [col_data])
  else Raise ValueError.

Definition init (data : dataset) (metadata : option Metadata) (shuffle : bool)
    : result t :=
  md ← or_raise TypeError metadata;
  self_data ← for_each (init_body data) (enumerate (details md)) [];
  Ok (Build shuffle md (metadata_num_features md)
        (zip_star (rows <$> self_data))).

End with_overflow.

Definition size (self : t) : nat := length (data self).

(** [get_data], as the list of the rows it yields; [rng_shuffle] is what
    [self.rng.shuffle] makes of the indices. *)
Definition get_data (rng_shuffle : list nat → list nat) (self : t)
    : result (list row) :=
  let idxs := seq 0 (length (data self)) in
  let idxs := if shuffle self then rng_shuffle idxs else idxs in
  mapM (λ k, or_raise IndexError (data self !! k)) idxs.

End NpDataFlow.

(** The arrays that one turn of the loop of [NpDataFlow.__init__] appends
    for a column whose block is [b]: the scalar column and the
    probabilities of a ["value"], the [int32] block of a ["category"]. *)
Definition column_blocks (out_of_range : Q → Q) (info : column_info)
    (b : ndarray) : list ndarray :=
  if decide (type_ info = "value") then [columns_to_1 b; columns_from_1 b]
  else [asarray_int32 out_of_range b].

(** The parts that a row [br] of a block gives when the entries of a
    ["category"] fit in 32 bits: the first entry and the rest for a
    ["value"], the integer parts of the entries for a ["category"]. *)
Definition row_parts (info : column_info) (br : list Q) : list (list Q) :=
  if decide (type_ info = "value") then [take 1 br; drop 1 br]
  else [(λ x, inject_Z (integer_part x)) <$> br].

(** The arrays that [NpDataFlow.__init__] collects for the columns [cs]
    with the blocks [bs]. *)
Definition collected_blocks `{Int32Overflow} (cs : list (nat * column_info))
    (bs : list ndarray) : list ndarray :=
  mjoin (zip_with (λ c b, column_blocks (int32_out_of_range c.1) c.2 b) cs bs).

(** ** TGANDataset and load_data *)

Module TGANDataset.

Record t : Type := Build {
  data : dataset;
  preprocessor : Preprocessor.t;
  metadata : option Metadata;
  dataflow : NpDataFlow.t
}.

Definition init `{Int32Overflow} (data : dataset)
    (preprocessor : Preprocessor.t) : result t :=
  let metadata := Preprocessor.metadata preprocessor in
  dataflow ← NpDataFlow.init data metadata true;
  Ok (Build data preprocessor metadata dataflow).

Definition get_items (self : t) : option Metadata * NpDataFlow.t :=
  (metadata self, dataflow self).

End TGANDataset.

(** [load_data] from the table that [pd.read_csv] returns ([S3_DATASETS] is
    empty, so no data set is ever downloaded). *)
Definition load_data `{External} `{Int32Overflow} (raw_dataset : DataFrame)
    (continuous_columns : option (list nat)) (preprocessing : bool)
    (metadata : option Metadata) : result TGANDataset.t :=
  let prep := Preprocessor.init None None in
  if preprocessing then
    let '(r, prep) := Preprocessor.fit_transform prep raw_dataset true in
    dataset ← r;
    TGANDataset.init (Transformed dataset) prep
  else
    let prep := Preprocessor.Build (Preprocessor.continuous_columns prep) metadata in
    TGANDataset.init (Raw raw_dataset) prep.

(** ** Inputs for the concrete runs *)

(** A stand-in for the external collaborators: a mixture of five unit
    components that gives all the responsibility to the component [0]
    below [5] and to the component [1] from [5] on. *)
Definition toy_model : GaussianMixture :=
  MkGaussianMixture [0; 10; 20; 30; 40]%Q [1; 1; 1; 1; 1]%Q
    (λ row, match row with
            | [x] => if Qltb x 5 then [1; 0; 0; 0; 0]%Q else [0; 1; 0; 0; 0]%Q
            | _ => []
            end).

Definition toy_external : External :=
  MkExternal
    (λ k data, if decide (k = 5) then Ok toy_model else Raise ValueError)
    (λ x, x)
    (λ x, if Qltb x 0 then "neg" else "pos").

Definition toy_data : ndarray := reshape_col [1; 100; - (7 # 2)]%Q.

Definition table_ab : DataFrame := {[ 0 := StrColumn ["a"; "b"] ]}.
Definition table_b : DataFrame := {[ 0 := StrColumn ["b"] ]}.
Definition table_two : DataFrame :=
  {[ 0 := StrColumn ["b"; "a"]; 1 := StrColumn ["x"; "x"] ]}.
Definition table_text_as_number : DataFrame :=
  {[ 0 := StrColumn ["b"; "a"]; 1 := StrColumn ["x"; "y"] ]}.

Definition metadata_ab : Metadata := MkMetadata 1 [category_info ["a"; "b"] 2].
Definition metadata_unsupported : Metadata :=
  MkMetadata 2 [category_info ["a"; "b"] 2; ColumnInfo "date" None None None None].
Definition metadata_unsupported_first : Metadata :=
  MkMetadata 2 [ColumnInfo "date" None None None None; category_info ["a"; "b"] 2].

Definition encoded_two : TransformedTable :=
  {[ "f00" := Array2 1 [[0]; [1]]%Q; "f01" := Array2 1 [[5]; [7]]%Q ]}.
Definition encoded_one : TransformedTable :=
  {[ "f00" := Array2 1 [[0]; [1]]%Q ]}.

(** A cast that gives the least 32 bit integer for every entry that does
    not fit. *)
Definition toy_overflow : Int32Overflow := λ _ _, inject_Z (- 2 ^ 31).

Definition table_mixed : DataFrame :=
  {[ 0 := StrColumn ["b"; "a"]; 1 := NumColumn [1; 100]%Q ]}.
Definition columns_mixed : list column :=
  [StrColumn ["b"; "a"]; NumColumn [1; - (1)]%Q].
Definition metadata_mixed : Metadata :=
  MkMetadata 2 [category_info ["a"; "b"] 2; value_info [0; 10]%Q [1; 1]%Q 2].
Definition encoded_mixed : TransformedTable :=
  {[ "f00" := Array2 1 [[0]; [1]]%Q;
     "f01" := Array2 3 [[1 # 2; 1; 0]; [- (1 # 2); 0; 1]]%Q ]}.

(** ** Facts about the result monad and the numpy helpers *)

Arguments py_dict : simpl never.
Arguments enumerate : simpl never.
Arguments np_unique : simpl never.
Arguments Q_as_index : simpl never.
Arguments Q_of_nat : simpl never.

Section result_facts.
Context {A B : Type}.

Lemma mapM_nil (f : A → result B) : mapM f [] = Ok [].
Proof. reflexivity. Qed.

Lemma mapM_cons (f : A → result B) x l :
  mapM f (x :: l) = y ← f x; k ← mapM f l; Ok (y :: k).
Proof. reflexivity. Qed.

Lemma mapM_Ok_length (f : A → result B) (l : list A) (k : list B) :
  mapM f l = Ok k → length k = length l.
Proof.
  revert k. induction l as [|x l IH]; intros k; cbn.
  - by intros [= <-].
  - destruct (f x) as [y|e]; cbn; [|done].
    destruct (mapM f l) as [k'|e]; cbn; [|done].
    intros [= <-]. cbn. f_equal. by apply IH.
Qed.

Lemma mapM_Ok_Forall2 (f : A → result B) (l : list A) (k : list B) :
  mapM f l = Ok k ↔ Forall2 (λ x y, f x = Ok y) l k.
Proof.
  revert k. induction l as [|x l IH]; intros k.
  - rewrite mapM_nil. split.
    + intros [= <-]. constructor.
    + by intros ->%Forall2_nil_inv_l.
  - rewrite mapM_cons. split.
    + destruct (f x) as [y|e] eqn:Hy; cbn -[mapM]; [|done].
      destruct (mapM f l) as [k'|e] eqn:Hk; cbn; [|done].
      intros [= <-]. constructor; [done|]. by apply IH.
    + intros (y & k' & Hy & Hk & ->)%Forall2_cons_inv_l.
      rewrite Hy. cbn -[mapM]. apply IH in Hk. by rewrite Hk.
Qed.

Lemma mapM_is_Ok (f : A → result B) (l : list A) :
  (∀ x, x ∈ l → ∃ y, f x = Ok y) → ∃ k, mapM f l = Ok k.
Proof.
  induction l as [|x l IH]; intros Hf; [by exists []|].
  destruct (Hf x) as [y Hy]; [by left|].
  destruct IH as [k Hk]; [intros z Hz; apply Hf; by right|].
  exists (y :: k). by rewrite mapM_cons, Hy, Hk.
Qed.

Lemma bind_Ok_inv (m : result A) (f : A → result B) (b : B) :
  m ≫= f = Ok b → ∃ a, m = Ok a ∧ f a = Ok b.
Proof. destruct m as [a|e]; cbn; [eauto|done]. Qed.

End result_facts.

Lemma or_raise_Ok_inv {A} (e : exn) (o : option A) (a : A) :
  or_raise e o = Ok a → o = Some a.
Proof. destruct o; cbn; congruence. Qed.

Section dict_facts.
Context `{Countable K} {V : Type}.

Lemma py_dict_snoc (kvs : list (K * V)) k v :
  py_dict (kvs ++ [(k, v)]) = <[k := v]> (py_dict kvs).
Proof. unfold py_dict. by rewrite foldl_app. Qed.
End dict_facts.

Lemma enumerate_snoc {A} (l : list A) x :
  enumerate (l ++ [x]) = enumerate l ++ [(length l, x)].
Proof.
  unfold enumerate. rewrite imap_app. cbn. by rewrite Nat.add_0_r.
Qed.

(** [dict(enumerate(l))[i]] is [l[i]]. *)
Lemma py_dict_enumerate_lookup {A} (l : list A) i :
  py_dict (enumerate l) !! i = l !! i.
Proof.
  induction l as [|x l IH] using rev_ind; [done|].
  rewrite enumerate_snoc, py_dict_snoc.
  destruct (decide (i = length l)) as [->|Hne].
  - rewrite lookup_insert_eq. by rewrite list_lookup_middle.
  - rewrite lookup_insert_ne by done. rewrite IH.
    destruct (decide (i < length l)).
    + by rewrite lookup_app_l.
    + rewrite !lookup_ge_None_2; [done| |lia].
      rewrite length_app. cbn. lia.
Qed.

(** [{value: index for index, value in enumerate(l)}] sends each member of
    [l] to a position where it occurs. *)
Lemma py_dict_index_lookup (l : list string) x :
  x ∈ l →
  ∃ i, py_dict (prod_swap <$> enumerate l) !! x = Some i ∧ l !! i = Some x.
Proof.
  induction l as [|y l IH] using rev_ind; [by intros ?%elem_of_nil|].
  intros Hx. rewrite enumerate_snoc, fmap_app. cbn. rewrite py_dict_snoc.
  destruct (decide (x = y)) as [->|Hne].
  - exists (length l). rewrite lookup_insert_eq. by rewrite list_lookup_middle.
  - rewrite lookup_insert_ne by done.
    apply elem_of_app in Hx as [Hx|Hx%list_elem_of_singleton]; [|done].
    destruct (IH Hx) as (i & Hi & Hl). exists i. split; [done|].
    by apply lookup_app_l_Some.
Qed.

Lemma elem_of_np_unique (data : list string) x : x ∈ np_unique data ↔ x ∈ data.
Proof.
  unfold np_unique. rewrite merge_sort_Permutation. apply elem_of_remove_dups.
Qed.

Lemma NoDup_np_unique (data : list string) : NoDup (np_unique data).
Proof.
  unfold np_unique. rewrite merge_sort_Permutation. apply NoDup_remove_dups.
Qed.

Lemma Sorted_np_unique (data : list string) : Sorted String.le (np_unique data).
Proof. apply (Sorted_merge_sort String.le). Qed.

Lemma Q_as_index_of_nat (i : nat) : Q_as_index (Q_of_nat i) = Some i.
Proof.
  unfold Q_as_index, Q_of_nat, inject_Z. cbn.
  rewrite Z.mod_1_r, Z.div_1_r, Nat2Z.id.
  replace (0 <=? Z.of_nat i)%Z with true; [done|].
  symmetry. apply Z.leb_le. lia.
Qed.

Lemma flat_reshape_col (l : list Q) : flat (reshape_col l) = l.
Proof.
  unfold flat, reshape_col. cbn. induction l as [|x l IH]; [done|].
  cbn. by rewrite IH.
Qed.

Lemma check_inputs_reshape_col (l : list Q) : check_inputs (reshape_col l) = Ok ().
Proof. reflexivity. Qed.

(** ** Categorical round trip *)

Example categorical_transform_ex :
  CategoricalTransformer.transform ["b"; "a"; "c"; "a"]
  = Ok (Array2 1 [[1%Q]; [0%Q]; [2%Q]; [0%Q]], ["a"; "b"; "c"], 3).
Proof. vm_compute. reflexivity. Qed.

(** The vocabulary lookups of [transform] never raise: the indices are
    positions of the values in the sorted vocabulary. *)
Lemma categorical_transform_Ok (data : list string) :
  ∃ v : list nat,
    CategoricalTransformer.transform data
    = Ok (reshape_col (Q_of_nat <$> v), np_unique data, length (np_unique data))
    ∧ Forall2 (λ x i, np_unique data !! i = Some x) data v.
Proof.
  unfold CategoricalTransformer.transform.
  remember (py_dict (prod_swap <$> enumerate (np_unique data))) as d eqn:Hd.
  assert (∀ l : list string, (∀ x, x ∈ l → x ∈ data) →
    ∃ v, mapM (λ x, or_raise KeyError (d !! x)) l = Ok v
         ∧ Forall2 (λ x i, np_unique data !! i = Some x) l v) as Hgo.
  { induction l as [|x l IH]; intros Hl.
    - exists []. split; [done|constructor].
    - destruct (py_dict_index_lookup (np_unique data) x) as (i & Hi & Hx).
      { apply elem_of_np_unique, Hl. by left. }
      destruct IH as (v & Hv & HF); [intros y Hy; apply Hl; by right|].
      exists (i :: v). split; [|by constructor].
      rewrite <- Hd in Hi. cbn. rewrite Hi. cbn. by rewrite Hv. }
  destruct (Hgo data) as (v & Hv & HF); [done|].
  exists v. split; [|done]. by rewrite Hv.
Qed.

(** Decoding the indices of values of [mapping] gives the values back. *)
Lemma categorical_decode_indices (mapping data : list string) (v : list nat) :
  Forall2 (λ x i, mapping !! i = Some x) data v →
  CategoricalTransformer.reverse_transform
    (reshape_col (Q_of_nat <$> v)) (category_info mapping (length mapping))
  = Ok data.
Proof.
  intros HF. unfold CategoricalTransformer.reverse_transform.
  rewrite flat_reshape_col, check_inputs_reshape_col. cbn -[mapM].
  induction HF as [|x i l v' Hx HF IH]; [done|].
  rewrite fmap_cons, mapM_cons, IH, Q_as_index_of_nat. cbn.
  by rewrite py_dict_enumerate_lookup, Hx.
Qed.

(** C1. For every column of strings, [CategoricalTransformer.transform]
    succeeds, and [reverse_transform] applied to the encoded column and to
    the column description built from the returned vocabulary gives back
    exactly the original values. *)
Theorem categorical_round_trip (data : list string) :
  ∃ features mapping k,
    CategoricalTransformer.transform data = Ok (features, mapping, k)
    ∧ CategoricalTransformer.reverse_transform features (category_info mapping k)
      = Ok data.
Proof.
  destruct (categorical_transform_Ok data) as (v & Ht & HF).
  eexists _, _, _. split; [exact Ht|].
  by apply categorical_decode_indices.
Qed.

(** ** Order on the rationals, [np.clip] and [np.argmax] *)

Lemma Qltb_lt (x y : Q) : Qltb x y = true ↔ (x < y)%Q.
Proof. unfold Qltb, Qlt. apply Z.ltb_lt. Qed.

Lemma Qltb_ge (x y : Q) : Qltb x y = false ↔ (y <= x)%Q.
Proof. unfold Qltb, Qle. rewrite Z.ltb_ge. done. Qed.

Lemma np_clip_bounds (x lo hi : Q) :
  (lo <= hi)%Q → (lo <= np_clip x lo hi)%Q ∧ (np_clip x lo hi <= hi)%Q.
Proof.
  intros Hlh. unfold np_clip, np_minimum, np_maximum.
  destruct (Qltb lo x) eqn:H1.
  - apply Qltb_lt in H1. destruct (Qltb x hi) eqn:H2.
    + apply Qltb_lt in H2. split; by apply Qlt_le_weak.
    + split; [done|apply Qle_refl].
  - destruct (Qltb lo hi) eqn:H2.
    + apply Qltb_lt in H2. split; [apply Qle_refl|done].
    + split; [done|apply Qle_refl].
Qed.

Lemma np_clip_above (x lo hi : Q) : (hi < x)%Q → np_clip x lo hi = hi.
Proof.
  intros Hx. unfold np_clip, np_minimum, np_maximum.
  destruct (Qltb lo x) eqn:H1.
  - replace (Qltb x hi) with false; [done|].
    symmetry. apply Qltb_ge. by apply Qlt_le_weak.
  - apply Qltb_ge in H1.
    replace (Qltb lo hi) with false; [done|].
    symmetry. apply Qltb_ge. apply Qlt_le_weak. by eapply Qlt_le_trans.
Qed.

Lemma np_clip_below (x lo hi : Q) : (lo < hi)%Q → (x < lo)%Q → np_clip x lo hi = lo.
Proof.
  intros Hlh Hx. unfold np_clip, np_minimum, np_maximum.
  replace (Qltb lo x) with false
    by (symmetry; apply Qltb_ge; by apply Qlt_le_weak).
  by apply Qltb_lt in Hlh as ->.
Qed.

Lemma np_clip_inside (x lo hi : Q) :
  (lo <= x)%Q → (x <= hi)%Q → (np_clip x lo hi == x)%Q.
Proof.
  intros H1 H2. unfold np_clip, np_minimum, np_maximum.
  destruct (Qltb lo x) eqn:E1.
  - destruct (Qltb x hi) eqn:E2; [reflexivity|].
    apply Qltb_ge in E2. by apply Qle_antisym.
  - apply Qltb_ge in E1. assert (lo == x)%Q as Hlx by by apply Qle_antisym.
    destruct (Qltb lo hi) eqn:E2; [done|].
    apply Qltb_ge in E2. apply Qle_antisym; [by rewrite <- Hlx|done].
Qed.

Lemma argmax_from_spec (pre v : list Q) (best : nat) (vbest : Q) :
  pre !! best = Some vbest →
  (∀ j q, pre !! j = Some q → (q <= vbest)%Q) →
  (∀ j q, j < best → pre !! j = Some q → (q < vbest)%Q) →
  is_argmax (pre ++ v) (argmax_from best vbest (length pre) v).
Proof.
  revert pre best vbest.
  induction v as [|x v IH]; intros pre best vbest Hb Hle Hlt; cbn.
  - rewrite app_nil_r. by exists vbest.
  - assert (length (pre ++ [x]) = S (length pre)) as Hlen
      by (rewrite length_app; cbn; lia).
    destruct (Qltb vbest x) eqn:Hx.
    + apply Qltb_lt in Hx.
      specialize (IH (pre ++ [x]) (length pre) x).
      rewrite Hlen, <- app_assoc in IH. apply IH.
      * by rewrite list_lookup_middle.
      * intros j q [Hj|[_ Hj]]%lookup_app_Some.
        -- apply Qlt_le_weak. eapply Qle_lt_trans; [by eapply Hle|done].
        -- destruct (j - length pre); cbn in Hj; [|done].
           injection Hj as <-. apply Qle_refl.
      * intros j q Hjl Hj. rewrite lookup_app_l in Hj by done.
        eapply Qle_lt_trans; [by eapply Hle|done].
    + apply Qltb_ge in Hx.
      specialize (IH (pre ++ [x]) best vbest).
      rewrite Hlen, <- app_assoc in IH. apply IH.
      * by apply lookup_app_l_Some.
      * intros j q [Hj|[_ Hj]]%lookup_app_Some; [by eapply Hle|].
        destruct (j - length pre); cbn in Hj; [|done].
        by injection Hj as <-.
      * intros j q Hjb Hj. apply lookup_lt_Some in Hb.
        rewrite lookup_app_l in Hj by lia. by eapply Hlt.
Qed.

Lemma np_argmax_spec (v : list Q) (k : nat) : np_argmax v = Ok k → is_argmax v k.
Proof.
  destruct v as [|x v]; cbn; [done|]. intros [= <-].
  apply (argmax_from_spec [x] v 0 x); [done| |intros; lia].
  intros [|j] q; cbn; [|done]. intros [= <-]. apply Qle_refl.
Qed.

Lemma np_argmax_Ok (v : list Q) : v ≠ [] → ∃ k, np_argmax v = Ok k.
Proof. destruct v; [done|]. cbn. eauto. Qed.

Lemma is_argmax_lt_length v k : is_argmax v k → k < length v.
Proof. intros (p & Hk & _). by eapply lookup_lt_Some. Qed.

Lemma is_argmax_unique v k1 k2 : is_argmax v k1 → is_argmax v k2 → k1 = k2.
Proof.
  intros (p1 & Hk1 & Hle1 & Hlt1) (p2 & Hk2 & Hle2 & Hlt2).
  destruct (Nat.lt_trichotomy k1 k2) as [Hl|[->|Hl]]; [|done|].
  - pose proof (Hlt2 _ _ Hl Hk1). pose proof (Hle1 _ _ Hk2).
    exfalso. eapply Qlt_irrefl, Qlt_le_trans; eauto.
  - pose proof (Hlt1 _ _ Hl Hk2). pose proof (Hle2 _ _ Hk1).
    exfalso. eapply Qlt_irrefl, Qlt_le_trans; eauto.
Qed.

(** ** MultiModalNumberTransformer.reverse_transform *)

Example multimodal_reverse_transform_ex :
  MultiModalNumberTransformer.reverse_transform MultiModalNumberTransformer.init
    (Array2 3 [[1 # 2; 1 # 4; 3 # 4]; [- (1 # 2); 1; 0]]%Q)
    (value_info [10; 20]%Q [1; 3]%Q 2)
  = Ok [(1 # 2) * 2 * 3 + 20; - (1 # 2) * 2 * 1 + 10]%Q.
Proof. reflexivity. Qed.

(** C6. On an encoded column, an array whose rows are a scalar followed by
    probabilities, no more of them than there are means and standard
    deviations, [MultiModalNumberTransformer.reverse_transform] returns, for
    each row [(scalar, probs)] on its own, [scalar * 2 * stds[k] + means[k]],
    where [k] is the index of the maximum of [probs]. *)
Theorem multimodal_reverse_transform_formula
    (self : MultiModalNumberTransformer.t) (data : ndarray) (info : column_info)
    (mean std : list Q) :
  means info = Some mean →
  stds info = Some std →
  1 < shape1 data →
  Forall (λ r, length r = shape1 data) (rows data) →
  (shape1 data - 1 ≤ length mean)%nat →
  (shape1 data - 1 ≤ length std)%nat →
  ∃ out,
    MultiModalNumberTransformer.reverse_transform self data info = Ok out
    ∧ length out = length (rows data)
    ∧ ∀ i scalar probs, rows data !! i = Some (scalar :: probs) →
        ∃ k μ σ,
          is_argmax probs k
          ∧ mean !! k = Some μ
          ∧ std !! k = Some σ
          ∧ out !! i = Some (scalar * 2 * σ + μ)%Q.
Proof.
  intros Hmean Hstd Hshape Hrows Hlm Hls.
  unfold MultiModalNumberTransformer.reverse_transform.
  (* features = data[:, 0] *)
  destruct (mapM_is_Ok (λ r : list Q, or_raise IndexError (r !! 0)) (rows data))
    as [features Hfeatures].
  { intros r Hr. rewrite Forall_forall in Hrows. specialize (Hrows r Hr).
    destruct r as [|x r]; cbn in *; [lia|eauto]. }
  unfold column_at. rewrite decide_True by lia. rewrite Hfeatures. cbn -[mapM].
  (* p_argmax = np.argmax(data[:, 1:], axis=1) *)
  destruct (mapM_is_Ok np_argmax (drop 1 <$> rows data)) as [p_argmax Hargmax].
  { intros v (r & -> & Hr)%list_elem_of_fmap. apply np_argmax_Ok.
    rewrite Forall_forall in Hrows. specialize (Hrows r Hr).
    destruct r as [|x [|y r]]; cbn in *; [lia|lia|done]. }
  unfold np_argmax_axis1. cbn -[mapM]. rewrite decide_False by lia.
  rewrite Hargmax, Hmean, Hstd. cbn -[mapM].
  apply mapM_Ok_Forall2 in Hfeatures, Hargmax.
  assert (Forall (λ k, k < shape1 data - 1) p_argmax) as Hk.
  { apply Forall_lookup. intros i k Hi.
    destruct (Forall2_lookup_r _ _ _ _ _ Hargmax Hi) as (v & Hv & Hvk).
    apply np_argmax_spec, is_argmax_lt_length in Hvk.
    apply list_lookup_fmap_Some in Hv as (r & -> & Hr).
    rewrite length_drop in Hvk.
    by rewrite (Forall_lookup_1 _ _ _ _ Hrows Hr) in Hvk. }
  destruct (mapM_is_Ok (λ k, or_raise IndexError (mean !! k)) p_argmax)
    as [select_mean Hsm].
  { intros k Hin. rewrite Forall_forall in Hk. specialize (Hk k Hin).
    destruct (lookup_lt_is_Some_2 mean k) as [μ ->]; [lia|]. by exists μ. }
  destruct (mapM_is_Ok (λ k, or_raise IndexError (std !! k)) p_argmax)
    as [select_std Hss].
  { intros k Hin. rewrite Forall_forall in Hk. specialize (Hk k Hin).
    destruct (lookup_lt_is_Some_2 std k) as [σ ->]; [lia|]. by exists σ. }
  rewrite Hsm, Hss. cbn -[mapM]. eexists. split; [done|].
  apply mapM_Ok_Forall2 in Hsm, Hss.
  pose proof (Forall2_length _ _ _ Hfeatures) as Lf.
  pose proof (Forall2_length _ _ _ Hargmax) as La.
  pose proof (Forall2_length _ _ _ Hsm) as Lm.
  pose proof (Forall2_length _ _ _ Hss) as Ls.
  rewrite length_fmap in La.
  split.
  { rewrite length_zip_with, length_zip. lia. }
  intros i scalar probs Hi.
  destruct (Forall2_lookup_l _ _ _ _ _ Hfeatures Hi) as (f & Hf & Hf0).
  cbn in Hf0. injection Hf0 as <-.
  assert ((drop 1 <$> rows data) !! i = Some probs) as Hp
    by by rewrite list_lookup_fmap, Hi.
  destruct (Forall2_lookup_l _ _ _ _ _ Hargmax Hp) as (k & Hpk & Hkp).
  destruct (Forall2_lookup_l _ _ _ _ _ Hsm Hpk) as (μ & Hμ & Hkμ).
  destruct (Forall2_lookup_l _ _ _ _ _ Hss Hpk) as (σ & Hσ & Hkσ).
  apply or_raise_Ok_inv in Hkμ, Hkσ.
  exists k, μ, σ. split; [by apply np_argmax_spec|]. split; [done|]. split; [done|].
  apply lookup_zip_with_Some. exists scalar, (σ, μ). split; [done|].
  split; [done|]. by apply lookup_zip_Some.
Qed.

(** ** MultiModalNumberTransformer.transform *)

Lemma clip_lo_lt_hi :
  (MultiModalNumberTransformer.clip_lo < MultiModalNumberTransformer.clip_hi)%Q.
Proof. reflexivity. Qed.

Ltac inv_bind H :=
  let x := fresh "x" in
  let Hx := fresh "H" x in
  apply bind_Ok_inv in H as (x & Hx & H); cbv zeta in H.

Section multimodal_transform.
Context `{External}.
Import MultiModalNumberTransformer.

(** What [transform] computes, row by row. *)
Lemma multimodal_transform_rows self data features probs means stds :
  transform self data = Ok (features, probs, means, stds) →
  ∃ model fs,
    GaussianMixture_fit (num_modes self) data = Ok model
    ∧ means = means_ model
    ∧ stds = np_sqrt <$> covariances_ model
    ∧ length means = num_modes self
    ∧ length stds = num_modes self
    ∧ probs = Array2 (num_modes self) (predict_proba model <$> rows data)
    ∧ features = reshape_col ((λ v, np_clip v clip_lo clip_hi) <$> fs)
    ∧ length fs = length (rows data)
    ∧ ∀ i r x, rows data !! i = Some r → r !! 0 = Some x →
        ∃ k μ σ,
          np_argmax (predict_proba model r) = Ok k
          ∧ means !! k = Some μ
          ∧ stds !! k = Some σ
          ∧ fs !! i = Some ((x - μ) / (2 * σ))%Q.
Proof.
  intros Ht. unfold transform in Ht.
  inv_bind Ht. inv_bind Ht. inv_bind Ht. inv_bind Ht. inv_bind Ht.
  inv_bind Ht. inv_bind Ht. injection Ht as <- <- <- <-.
  clear Hx x. rename x0 into model, x1 into ms, x2 into ss, x3 into xs,
    x4 into argmax, x5 into fs.
  unfold reshape_row in Hx1, Hx2.
  destruct (decide (length (means_ model) = num_modes self)) as [Lm|];
    [|done].
  destruct (decide (length (np_sqrt <$> covariances_ model) = num_modes self))
    as [Ls|]; [|done].
  injection Hx1 as <-. injection Hx2 as <-.
  unfold column_at in Hx3. destruct (decide (0 < shape1 data)); [|done].
  unfold np_argmax_axis1 in Hx4. cbn -[mapM] in Hx4.
  destruct (decide (num_modes self = 0)); [done|].
  apply mapM_Ok_Forall2 in Hx3, Hx4, Hx5.
  pose proof (Forall2_length _ _ _ Hx3) as Lx.
  pose proof (Forall2_length _ _ _ Hx4) as La.
  pose proof (Forall2_length _ _ _ Hx5) as Lf.
  rewrite length_fmap in La.
  rewrite length_zip, length_fmap in Lf.
  exists model, fs. repeat (split; [done|]).
  split; [lia|].
  intros i r x Hr Hr0.
  destruct (Forall2_lookup_l _ _ _ _ _ Hx3 Hr) as (x' & Hxi & Hx').
  rewrite Hr0 in Hx'. injection Hx' as <-.
  assert ((predict_proba model <$> rows data) !! i
          = Some (predict_proba model r)) as Hp
    by by rewrite list_lookup_fmap, Hr.
  destruct (Forall2_lookup_l _ _ _ _ _ Hx4 Hp) as (k & Hk & Hpk).
  set (row := zip_with (λ m s, (x - m) / (2 * s))%Q
                (means_ model) (np_sqrt <$> covariances_ model)).
  assert (zip ((λ x, zip_with (λ m s, (x - m) / (2 * s))%Q
                       (means_ model) (np_sqrt <$> covariances_ model))
               <$> xs) argmax !! i = Some (row, k)) as Hz.
  { apply lookup_zip_Some. split; [|done].
    by rewrite list_lookup_fmap, Hxi. }
  destruct (Forall2_lookup_l _ _ _ _ _ Hx5 Hz) as (v & Hv & Hrow).
  cbn in Hrow. apply or_raise_Ok_inv in Hrow.
  apply lookup_zip_with_Some in Hrow as (μ & σ & -> & Hμ & Hσ).
  by exists k, μ, σ.
Qed.

(** [transform] returns when the mixture is fitted and has the shape
    that [sklearn] gives it: [num_modes] means, covariances and
    responsibilities per sample. *)
Lemma multimodal_transform_Ok self data model :
  shape1 data = 1 →
  Forall (λ r, length r = 1) (rows data) →
  num_modes self ≠ 0 →
  GaussianMixture_fit (num_modes self) data = Ok model →
  length (means_ model) = num_modes self →
  length (covariances_ model) = num_modes self →
  Forall (λ r, length (predict_proba model r) = num_modes self) (rows data) →
  ∃ features probs,
    transform self data
    = Ok (features, probs, means_ model, np_sqrt <$> covariances_ model).
Proof.
  intros Hshape Hrows Hmodes Hfit Lm Lc Hprobs. unfold transform.
  assert (check_inputs data = Ok ()) as ->
    by (unfold check_inputs; by rewrite decide_True).
  cbn -[mapM]. rewrite Hfit. cbn -[mapM].
  assert (reshape_row (means_ model) (num_modes self) = Ok (means_ model))
    as -> by (unfold reshape_row; by rewrite decide_True).
  assert (reshape_row (np_sqrt <$> covariances_ model) (num_modes self)
          = Ok (np_sqrt <$> covariances_ model))
    as -> by (unfold reshape_row; rewrite decide_True; by rewrite ?length_fmap).
  cbn -[mapM].
  destruct (mapM_is_Ok (λ r : list Q, or_raise IndexError (r !! 0)) (rows data))
    as [xs Hxs].
  { intros r Hr. rewrite Forall_forall in Hrows. specialize (Hrows r Hr).
    destruct r as [|x r]; cbn in *; [lia|eauto]. }
  unfold column_at. rewrite decide_True by lia. rewrite Hxs. cbn -[mapM].
  destruct (mapM_is_Ok np_argmax (predict_proba model <$> rows data))
    as [argmax Hargmax].
  { intros v (r & -> & Hr)%list_elem_of_fmap. apply np_argmax_Ok.
    rewrite Forall_forall in Hprobs. specialize (Hprobs r Hr).
    intros Hnil. rewrite Hnil in Hprobs. cbn in Hprobs. lia. }
  unfold np_argmax_axis1. cbn -[mapM]. rewrite decide_False by done.
  rewrite Hargmax. cbn -[mapM].
  match goal with
  | |- ∃ _ _, mapM ?f ?l ≫= _ = _ => destruct (mapM_is_Ok f l) as [fs Hfs]
  end.
  { intros [row k] Hin. cbn.
    pose proof (elem_of_zip_l _ _ _ _ Hin) as Hrow.
    pose proof (elem_of_zip_r _ _ _ _ Hin) as Hk.
    apply list_elem_of_fmap in Hrow as (x & -> & _).
    apply mapM_Ok_Forall2 in Hargmax.
    apply list_elem_of_lookup in Hk as [i Hi].
    destruct (Forall2_lookup_r _ _ _ _ _ Hargmax Hi) as (v & Hv & Hvk).
    apply np_argmax_spec, is_argmax_lt_length in Hvk.
    apply list_lookup_fmap_Some in Hv as (r & -> & Hr).
    rewrite (Forall_lookup_1 _ _ _ _ Hprobs Hr) in Hvk.
    match goal with
    | |- ∃ _, or_raise _ (?z !! k) = _ =>
        destruct (lookup_lt_is_Some_2 z k) as [y ->]; [|by exists y]
    end.
    rewrite length_zip_with, length_fmap. lia. }
  rewrite Hfs. cbn. eauto.
Qed.

(** The responsibilities that [transform] returns are the rows of
    [predict_proba], untouched. *)
Lemma multimodal_transform_probs self data features probs means stds :
  transform self data = Ok (features, probs, means, stds) →
  ∃ model,
    GaussianMixture_fit (num_modes self) data = Ok model
    ∧ rows probs = predict_proba model <$> rows data.
Proof.
  intros (model & fs & Hfit & _ & _ & _ & _ & -> & _)%multimodal_transform_rows.
  by exists model.
Qed.

End multimodal_transform.

(** C7. Every normalized scalar that [MultiModalNumberTransformer.transform]
    returns lies in the closed interval [[-0.99, 0.99]]: for the value [x]
    of a row, with [k] the index of the maximum of its responsibilities, the
    scalar is [0.99] when [(x - means[k]) / (2 * stds[k])] exceeds [0.99],
    it is [-0.99] when that quotient is below [-0.99], and it is the
    quotient otherwise. *)
Theorem multimodal_transform_clipped `{External}
    (self : MultiModalNumberTransformer.t) (data features probs : ndarray)
    (means stds : list Q) :
  MultiModalNumberTransformer.transform self data
  = Ok (features, probs, means, stds) →
  let lo := MultiModalNumberTransformer.clip_lo in
  let hi := MultiModalNumberTransformer.clip_hi in
  shape1 features = 1
  ∧ length (rows features) = length (rows data)
  ∧ (∀ r, r ∈ rows features → ∃ v, r = [v] ∧ (lo <= v)%Q ∧ (v <= hi)%Q)
  ∧ ∀ i x, rows data !! i = Some [x] →
      ∃ v p k μ σ,
        rows features !! i = Some [v]
        ∧ rows probs !! i = Some p
        ∧ is_argmax p k
        ∧ means !! k = Some μ
        ∧ stds !! k = Some σ
        ∧ (lo <= v)%Q ∧ (v <= hi)%Q
        ∧ ((hi < (x - μ) / (2 * σ))%Q → v = hi)
        ∧ (((x - μ) / (2 * σ) < lo)%Q → v = lo)
        ∧ ((lo <= (x - μ) / (2 * σ))%Q → ((x - μ) / (2 * σ) <= hi)%Q →
           (v == (x - μ) / (2 * σ))%Q).
Proof.
  intros Ht lo hi.
  apply multimodal_transform_rows in Ht
    as (model & fs & Hfit & -> & -> & Lm & Ls & -> & -> & Lf & Hrows).
  pose proof (Qlt_le_weak _ _ clip_lo_lt_hi) as Hlh.
  split; [done|]. split.
  { cbn. by rewrite !length_fmap. }
  split.
  { intros r. cbn.
    intros (v & -> & (s & -> & _)%list_elem_of_fmap)%list_elem_of_fmap.
    eexists. split; [done|]. by apply np_clip_bounds. }
  intros i x Hi.
  destruct (Hrows i [x] x Hi eq_refl) as (k & μ & σ & Hk & Hμ & Hσ & Hfs).
  exists (np_clip ((x - μ) / (2 * σ)) lo hi), (predict_proba model [x]), k, μ, σ.
  split. { cbn. by rewrite !list_lookup_fmap, Hfs. }
  split. { cbn. by rewrite list_lookup_fmap, Hi. }
  split; [by apply np_argmax_spec|].
  split; [done|]. split; [done|].
  split; [by apply np_clip_bounds|]. split; [by apply np_clip_bounds|].
  split; [apply np_clip_above|].
  split; [apply np_clip_below, clip_lo_lt_hi|apply np_clip_inside].
Qed.

(** ** Keys of the transformed table *)

Lemma pretty_N_go_length (x : N) (s : string) :
  (String.length s ≤ String.length (pretty_N_go x s))%nat.
Proof.
  revert s. induction (N.lt_wf_0 x) as [x _ IH]; intros s.
  destruct (decide (x = 0)%N) as [->|Hx]; [by rewrite pretty_N_go_0|].
  rewrite pretty_N_go_step by lia.
  etrans; [|apply IH; apply N.div_lt; lia]. cbn. lia.
Qed.

Lemma pretty_N_digit (x : N) :
  (x < 10)%N → pretty x = String (pretty_N_char x) "".
Proof.
  intros Hx. unfold pretty, pretty_N.
  destruct (decide (x = 0)%N) as [->|Hne]; [done|].
  rewrite pretty_N_go_step by lia.
  rewrite N.div_small, N.mod_small by done. by rewrite pretty_N_go_0.
Qed.

Lemma pretty_N_no_leading_zero (x : N) (c : Ascii.ascii) :
  (10 ≤ x)%N →
  pretty x ≠ String (Ascii.Ascii false false false false true true false false)
                    (String c "").
Proof.
  intros Hx. unfold pretty, pretty_N. rewrite decide_False by lia.
  rewrite pretty_N_go_step by lia.
  assert (0 < x `div` 10)%N as Hd by (apply N.div_str_pos; lia).
  rewrite pretty_N_go_step by done.
  remember (x `div` 10)%N as a eqn:Ha.
  remember (a `div` 10)%N as b eqn:Hb.
  destruct (decide (b = 0)%N) as [Hz|Hnz].
  - rewrite Hz, pretty_N_go_0. intros [= Hc _].
    apply (pretty_N_char_inj _ 0) in Hc; [| |lia].
    + rewrite Hz in Hb. symmetry in Hb. apply N.div_small_iff in Hb; [|lia].
      rewrite N.mod_small in Hc by done. lia.
    + apply N.mod_lt. lia.
  - rewrite pretty_N_go_step by lia. intros Heq.
    match type of Heq with
    | pretty_N_go ?y ?s = _ => pose proof (pretty_N_go_length y s) as Hlen
    end.
    rewrite Heq in Hlen. cbn in Hlen. lia.
Qed.

Lemma fkey_pad_ne (i j : nat) : i < 10 → ¬ j < 10 → "0" +:+ pretty i ≠ pretty j.
Proof.
  intros Hi Hj. unfold pretty at 1, pretty_nat.
  rewrite pretty_N_digit by lia. cbn. intros Heq. symmetry in Heq. revert Heq.
  apply pretty_N_no_leading_zero. lia.
Qed.

#[global] Instance fkey_inj : Inj (=) (=) fkey.
Proof.
  intros i j. unfold fkey. intros [= Heq].
  destruct (decide (i < 10)) as [Hi|Hi], (decide (j < 10)) as [Hj|Hj].
  - injection Heq as Heq. by apply (inj pretty).
  - by apply fkey_pad_ne in Heq.
  - symmetry in Heq. by apply fkey_pad_ne in Heq.
  - by apply (inj pretty).
Qed.

(** ** Loops *)

Section for_each_facts.
Context {S A : Type}.
Implicit Types (body : S → A → result S) (l : list A) (s : S).

Lemma for_each_cons body x l s :
  for_each body (x :: l) s = s' ← body s x; for_each body l s'.
Proof. reflexivity. Qed.

Lemma for_each_ext body body' l s :
  (∀ s' x, x ∈ l → body s' x = body' s' x) →
  for_each body l s = for_each body' l s.
Proof.
  revert s. induction l as [|x l IH]; intros s Hb; [done|].
  cbn. rewrite Hb by left. destruct (body' s x) as [s'|e]; cbn; [|done].
  apply IH. intros s'' y Hy. apply Hb. by right.
Qed.

Lemma for_each_app body l1 l2 s :
  for_each body (l1 ++ l2) s = s' ← for_each body l1 s; for_each body l2 s'.
Proof.
  revert s. induction l1 as [|x l1 IH]; intros s; [done|].
  cbn. destruct (body s x) as [s'|e]; cbn; [apply IH|done].
Qed.

End for_each_facts.

(** ** Preprocessor.fit_transform *)

Section preprocessor_fit.
Context `{External}.
Import Preprocessor.

Lemma fit_transform_body_column self data tbl dets i :
  fit_transform_body self data (tbl, dets) i
  = bi ← fit_column self data i;
    Ok (<[fkey i := bi.1]> tbl, dets ++ [bi.2]).
Proof.
  unfold fit_transform_body, fit_column.
  destruct (decide (i ∈ continuous_columns self)).
  - destruct (data !! i) as [col|]; cbn; [|done].
    destruct (values_reshape_col col) as [column_data|]; cbn; [|done].
    destruct (MultiModalNumberTransformer.transform _ _)
      as [[[[features probs] means] stds]|]; cbn; [|done].
    by destruct (np_concatenate_axis1 features probs).
  - destruct (data !! i) as [col|]; cbn; [|done].
    by destruct (CategoricalTransformer.transform _) as [[[features m] k]|].
Qed.

Lemma fit_transform_loop self data l tbl dets :
  for_each (fit_transform_body self data) l (tbl, dets)
  = rs ← mapM (fit_column self data) l;
    Ok (store_blocks tbl l rs, dets ++ rs.*2).
Proof.
  revert tbl dets. induction l as [|i l IH]; intros tbl dets.
  - cbn. by rewrite app_nil_r.
  - rewrite mapM_cons, for_each_cons, fit_transform_body_column.
    destruct (fit_column self data i) as [bi|e]; cbn -[mapM]; [|done].
    rewrite IH. destruct (mapM (fit_column self data) l) as [rs|e];
      cbn -[mapM]; [|done].
    unfold store_blocks. cbn. by rewrite <- app_assoc.
Qed.

Lemma store_blocks_cons tbl i l r rs :
  store_blocks tbl (i :: l) (r :: rs)
  = store_blocks (<[fkey i := r.1]> tbl) l rs.
Proof. reflexivity. Qed.

Lemma store_blocks_lookup_ne tbl l rs i :
  i ∉ l → store_blocks tbl l rs !! fkey i = tbl !! fkey i.
Proof.
  revert tbl rs. induction l as [|a l IH]; intros tbl rs Hni; [done|].
  destruct rs as [|b rs]; [done|].
  apply not_elem_of_cons in Hni as [Hne Hni].
  rewrite store_blocks_cons, IH by done. apply lookup_insert_ne.
  by intros Heq%(inj fkey).
Qed.

Lemma store_blocks_lookup tbl l rs j i r :
  NoDup l → l !! j = Some i → rs !! j = Some r →
  store_blocks tbl l rs !! fkey i = Some r.1.
Proof.
  revert tbl rs j.
  induction l as [|a l IH]; intros tbl rs j Hnd Hl Hr; [done|].
  destruct rs as [|b rs]; [done|].
  apply NoDup_cons in Hnd as [Ha Hnd]. rewrite store_blocks_cons.
  destruct j as [|j]; cbn in Hl, Hr.
  - injection Hl as ->. injection Hr as ->.
    rewrite store_blocks_lookup_ne by done. apply lookup_insert_eq.
  - by eapply IH.
Qed.

(** The result of [fit_transform] does not depend on the metadata of the
    instance, and neither on [fitting]. *)
Lemma fit_transform_ignores_metadata cc md md' data fitting fitting' :
  (fit_transform (Build cc md) data fitting).1
  = (fit_transform (Build cc md') data fitting').1.
Proof.
  unfold fit_transform.
  change (fit_transform_body (Build cc md) data)
    with (fit_transform_body (Build cc md') data).
  by destruct (for_each _ _ _) as [[tbl dets]|e].
Qed.

Lemma fit_transform_not_fitting self data :
  (fit_transform self data false).2 = self.
Proof.
  unfold fit_transform. by destruct (for_each _ _ _) as [[tbl dets]|e].
Qed.

Lemma fit_transform_Raise self data fitting e self' :
  fit_transform self data fitting = (Raise e, self') → self' = self.
Proof.
  unfold fit_transform. destruct (for_each _ _ _) as [[tbl dets]|e'].
  - by intros [= ].
  - by intros [= _ <-].
Qed.

Lemma fit_transform_Ok self data tbl self' :
  fit_transform self data true = (Ok tbl, self') →
  ∃ dets,
    self' = Build (continuous_columns self) (Some (MkMetadata (size data) dets))
    ∧ length dets = size data.
Proof.
  unfold fit_transform. rewrite fit_transform_loop.
  destruct (mapM _ _) as [rs|e] eqn:Hrs; cbn; [|by intros [= ]].
  intros [= <- <-]. eexists. split; [done|].
  apply mapM_Ok_length in Hrs. by rewrite length_fmap, Hrs, length_seq.
Qed.
End preprocessor_fit.

(** C5. [Preprocessor.fit] is atomic with respect to the metadata: when
    fitting raises, the instance is left exactly as it was, so no partial
    list of column descriptions is ever stored; when it succeeds, the
    metadata is replaced as a whole by the description of all the columns
    of the table. *)
Theorem fit_atomic `{External} (self : Preprocessor.t) (data : DataFrame)
    (r : result ()) (self' : Preprocessor.t) :
  Preprocessor.fit self data = (r, self') →
  match r with
  | Raise _ => self' = self
  | Ok _ =>
      ∃ dets,
        self' = Preprocessor.Build (Preprocessor.continuous_columns self)
                  (Some (MkMetadata (size data) dets))
        ∧ length dets = size data
  end.
Proof.
  unfold Preprocessor.fit.
  destruct (Preprocessor.fit_transform self data true) as [[tbl|e] s] eqn:Hft;
    intros [= <- <-]; cbn.
  - by eapply fit_transform_Ok.
  - by eapply fit_transform_Raise.
Qed.

Section preprocessor_categorical.
Context `{External}.
Import Preprocessor.

Lemma fit_column_categorical self data i r :
  continuous_columns self = [] →
  fit_column self data i = Ok r →
  ∃ col features mapping k,
    data !! i = Some col
    ∧ CategoricalTransformer.transform (astype_str col)
      = Ok (features, mapping, k)
    ∧ r = (features, category_info mapping k).
Proof.
  intros Hcc. unfold fit_column. rewrite Hcc.
  rewrite decide_False by apply not_elem_of_nil.
  destruct (data !! i) as [col|]; cbn; [|done].
  destruct (CategoricalTransformer.transform _) as [[[f m] k]|] eqn:Ht;
    cbn; [|done].
  intros [= <-]. by exists col, f, m, k.
Qed.

Lemma fit_column_categorical_Ok self data i :
  continuous_columns self = [] → is_Some (data !! i) →
  ∃ r, fit_column self data i = Ok r.
Proof.
  intros Hcc [col Hc]. unfold fit_column. rewrite Hcc.
  rewrite decide_False by apply not_elem_of_nil. rewrite Hc. cbn.
  destruct (categorical_transform_Ok (astype_str col)) as (v & -> & _).
  cbn. eauto.
Qed.
End preprocessor_categorical.

(** C10. A [Preprocessor] built without [continuous_columns] treats every
    column as categorical.  On a table whose columns are labelled
    [0 .. size data - 1], [fit_transform] succeeds; and whenever it succeeds
    it has stored under each key the block that
    [CategoricalTransformer.transform] gives for the column, and every entry
    of the metadata it sets has type ["category"]. *)
Theorem no_continuous_columns_all_categorical `{External}
    (md : option Metadata) (data : DataFrame) :
  ((∀ i, i < size data → is_Some (data !! i)) →
   ∃ tbl self',
     Preprocessor.fit_transform (Preprocessor.init None md) data true
     = (Ok tbl, self'))
  ∧ ∀ tbl self',
      Preprocessor.fit_transform (Preprocessor.init None md) data true
      = (Ok tbl, self') →
      ∃ dets,
        self' = Preprocessor.Build [] (Some (MkMetadata (size data) dets))
        ∧ length dets = size data
        ∧ Forall (λ info, type_ info = "category") dets
        ∧ ∀ i, i < size data →
            ∃ col features mapping k,
              data !! i = Some col
              ∧ CategoricalTransformer.transform (astype_str col)
                = Ok (features, mapping, k)
              ∧ tbl !! fkey i = Some features
              ∧ dets !! i = Some (category_info mapping k).
Proof.
  set (self := Preprocessor.init None md).
  unfold Preprocessor.fit_transform. rewrite fit_transform_loop. split.
  - intros Hlabels.
    destruct (mapM_is_Ok (Preprocessor.fit_column self data) (seq 0 (size data)))
      as [rs ->]; [|cbn; eauto].
    intros i Hi%elem_of_seq. apply fit_column_categorical_Ok; [done|].
    apply Hlabels. lia.
  - intros tbl self'.
    destruct (mapM _ _) as [rs|e] eqn:Hrs; cbn; [|by intros [= ]].
    intros [= <- <-]. eexists. split; [done|].
    apply mapM_Ok_Forall2 in Hrs.
    pose proof (Forall2_length _ _ _ Hrs) as Hlen. rewrite length_seq in Hlen.
    assert (∀ i r, rs !! i = Some r →
      ∃ col features mapping k,
        data !! i = Some col
        ∧ CategoricalTransformer.transform (astype_str col)
          = Ok (features, mapping, k)
        ∧ r = (features, category_info mapping k)) as Hrsi.
    { intros i r Hr.
      destruct (Forall2_lookup_r _ _ _ _ _ Hrs Hr) as (i' & Hi' & Hfc).
      apply lookup_seq in Hi' as [-> _].
      by apply (fit_column_categorical self). }
    split; [by rewrite length_fmap|]. split.
    + apply Forall_lookup. intros i info Hi.
      apply list_lookup_fmap_Some in Hi as (r & -> & Hr).
      by destruct (Hrsi i r Hr) as (col & f & m & k & _ & _ & ->).
    + intros i Hi.
      destruct (lookup_lt_is_Some_2 rs i) as [r Hr]; [lia|].
      destruct (Hrsi i r Hr) as (col & f & m & k & Hc & Ht & ->).
      exists col, f, m, k. split; [done|]. split; [done|]. split.
      * apply (store_blocks_lookup ∅ (seq 0 (size data)) rs i i
                 (f, category_info m k));
          [apply NoDup_seq|by apply lookup_seq_lt|done].
      * by rewrite list_lookup_fmap, Hr.
Qed.

(** ** Preprocessor.transform *)

(** C2, as amended.  [Preprocessor.transform] is [fit_transform] without
    the final assignment: it returns the table that [fit_transform] computes
    from the new data alone, whatever metadata the instance holds (the
    mixture model is fitted again and the vocabulary is rebuilt), and it
    leaves the instance, and so its metadata, unchanged. *)
Theorem transform_refits_and_keeps_metadata `{External}
    (self : Preprocessor.t) (data : DataFrame) :
  Preprocessor.transform self data
  = ((Preprocessor.fit_transform self data true).1, self)
  ∧ ∀ md',
      (Preprocessor.transform self data).1
      = (Preprocessor.transform
           (Preprocessor.Build (Preprocessor.continuous_columns self) md') data).1.
Proof.
  destruct self as [cc md]. unfold Preprocessor.transform. split.
  - rewrite (surjective_pairing (Preprocessor.fit_transform _ data false)).
    rewrite fit_transform_not_fitting. f_equal.
    apply fit_transform_ignores_metadata.
  - intros md'. apply fit_transform_ignores_metadata.
Qed.

(** ** Preprocessor.reverse_transform *)

Section preprocessor_reverse.
Import Preprocessor.

Lemma reverse_transform_body_missing md data locals i :
  data !! fkey i = None →
  reverse_transform_body md data locals i = Raise KeyError.
Proof.
  intros Hi. unfold reverse_transform_body. destruct locals. by rewrite Hi.
Qed.

Lemma reverse_transform_body_ext md data data' locals i :
  data' !! fkey i = data !! fkey i →
  reverse_transform_body md data' locals i
  = reverse_transform_body md data locals i.
Proof.
  intros Hi. unfold reverse_transform_body. destruct locals. by rewrite Hi.
Qed.

(** When the key of column [i] is missing, the loop runs the columns
    before [i] and raises [KeyError] at column [i], unless one of them has
    raised. *)
Lemma reverse_transform_missing_column self md data i :
  metadata self = Some md → i < num_features md → data !! fkey i = None →
  reverse_transform self data
  = match for_each (reverse_transform_body md data) (seq 0 i) (None, []) with
    | Ok _ => Raise KeyError
    | Raise e => Raise e
    end.
Proof.
  intros Hmd Hi Hk. unfold reverse_transform. rewrite Hmd. cbn -[for_each].
  replace (num_features md) with (i + S (num_features md - S i)) by lia.
  rewrite seq_app, for_each_app. cbn [seq].
  destruct (for_each _ (seq 0 i) _) as [s|e]; [|done].
  cbn -[for_each]. rewrite for_each_cons.
  by rewrite reverse_transform_body_missing.
Qed.

Lemma reverse_transform_ext self md data data' :
  metadata self = Some md →
  (∀ i, i < num_features md → data' !! fkey i = data !! fkey i) →
  reverse_transform self data' = reverse_transform self data.
Proof.
  intros Hmd Hk. unfold reverse_transform. rewrite Hmd. cbn.
  rewrite (for_each_ext (reverse_transform_body md data')
                        (reverse_transform_body md data)); [done|].
  intros s i Hi%elem_of_seq. apply reverse_transform_body_ext, Hk. lia.
Qed.

Lemma reverse_transform_unfit cc data :
  reverse_transform (init cc None) data = Raise TypeError.
Proof. reflexivity. Qed.
End preprocessor_reverse.

(** C8, as amended.  On a [Preprocessor] that holds no metadata,
    [reverse_transform] raises ([TypeError], on subscripting [None]) whatever
    its argument; [transform] does not read the metadata: it returns what
    it returns on an instance that holds any metadata, and leaves the
    instance without metadata. *)
Theorem unfit_reverse_raises_transform_runs `{External}
    (cc : option (list nat)) :
  (∀ data : TransformedTable,
     Preprocessor.reverse_transform (Preprocessor.init cc None) data
     = Raise TypeError)
  ∧ (∀ (df : DataFrame) md,
       (Preprocessor.transform (Preprocessor.init cc None) df).1
       = (Preprocessor.transform (Preprocessor.init cc (Some md)) df).1)
  ∧ (∀ df : DataFrame,
       (Preprocessor.transform (Preprocessor.init cc None) df).2
       = Preprocessor.init cc None).
Proof.
  split; [|split].
  - intros data. apply reverse_transform_unfit.
  - intros df md. apply fit_transform_ignores_metadata.
  - intros df. apply fit_transform_not_fitting.
Qed.

(** ** Concrete runs *)

Example toy_transform_ex :
  MultiModalNumberTransformer.transform (H := toy_external)
    MultiModalNumberTransformer.init toy_data
  = Ok (Array2 1 [[1 # 2]; [99 # 100]; [- (99 # 100)]]%Q,
        Array2 5 [[1; 0; 0; 0; 0]; [0; 1; 0; 0; 0]; [1; 0; 0; 0; 0]]%Q,
        [0; 10; 20; 30; 40]%Q, [1; 1; 1; 1; 1]%Q).
Proof. vm_compute. reflexivity. Qed.

(** C2, counterexample.  An instance fitted on a column with the values
    [a], [b] stores the mapping [[a; b]]; on a new column holding [b] alone
    [transform] answers [0], the index of [b] in the vocabulary of the new
    column, where the stored mapping gives [1]. *)
Lemma transform_rebuilds_vocabulary :
  (Preprocessor.fit_transform (H := toy_external)
     (Preprocessor.init None None) table_ab true).2
  = Preprocessor.Build [] (Some metadata_ab)
  ∧ Spec.encode_with_mapping ["a"; "b"] ["b"] = Ok (Array2 1 [[1%Q]])
  ∧ Preprocessor.transform (H := toy_external)
      (Preprocessor.Build [] (Some metadata_ab)) table_b
    = (Ok {[ "f00" := Array2 1 [[0%Q]] ]}, Preprocessor.Build [] (Some metadata_ab))
  ∧ (Preprocessor.transform (H := toy_external)
       (Preprocessor.Build [] (Some metadata_ab)) table_b).1
    ≠ Ok {[ "f00" := Array2 1 [[1%Q]] ]}.
Proof.
  split; [by vm_compute|]. split; [by vm_compute|]. split; [by vm_compute|].
  intros Heq. vm_compute in Heq. discriminate Heq.
Qed.

(** C3, counterexample.  With metadata for one column, [transform] accepts
    a table of two columns and encodes both, and [reverse_transform]
    accepts a transformed table of two blocks and silently drops the
    second. *)
Lemma column_count_mismatch_is_accepted :
  num_features metadata_ab = 1
  ∧ size table_two = 2
  ∧ (Preprocessor.transform (H := toy_external)
       (Preprocessor.Build [] (Some metadata_ab)) table_two).1
    = Ok {[ "f00" := Array2 1 [[1]; [0]]%Q; "f01" := Array2 1 [[0]; [0]]%Q ]}
  ∧ size encoded_two = 2
  ∧ Preprocessor.reverse_transform
      (Preprocessor.Build [] (Some metadata_ab)) encoded_two
    = Ok {[ 0 := StrColumn ["a"; "b"] ]}.
Proof. repeat split; by vm_compute. Qed.

(** C8, counterexample.  An instance that was never fitted and was given no
    metadata transforms a table without raising. *)
Lemma unfit_transform_succeeds :
  Preprocessor.metadata (Preprocessor.init None None) = None
  ∧ Preprocessor.transform (H := toy_external)
      (Preprocessor.init None None) table_ab
    = (Ok {[ "f00" := Array2 1 [[0]; [1]]%Q ]}, Preprocessor.init None None).
Proof. split; by vm_compute. Qed.

(** C4.  [check_metadata] rejects a description whose type is neither
    ["value"] nor ["category"], but [reverse_transform] does not call it:
    for such a column that is not the first it produces the column of the
    turn before once more; only when it is the first column does the unbound
    local [column] make it raise. *)
Lemma reverse_transform_unsupported_type :
  check_metadata metadata_unsupported = Raise AssertionError
  ∧ Preprocessor.reverse_transform
      (Preprocessor.Build [] (Some metadata_unsupported)) encoded_two
    = Ok {[ 0 := StrColumn ["a"; "b"]; 1 := StrColumn ["a"; "b"] ]}
  ∧ Preprocessor.reverse_transform
      (Preprocessor.Build [] (Some metadata_unsupported_first)) encoded_two
    = Raise UnboundLocalError.
Proof. repeat split; by vm_compute. Qed.

(** ** The theorems at concrete inputs *)

Lemma multimodal_reverse_transform_formula_witness :
  let data := Array2 3 [[1 # 2; 1 # 4; 3 # 4]; [- (1 # 2); 1; 0]]%Q in
  let info := value_info [10; 20]%Q [1; 3]%Q 2 in
  1 < shape1 data
  ∧ Forall (λ r, length r = shape1 data) (rows data)
  ∧ ∃ out,
      MultiModalNumberTransformer.reverse_transform
        MultiModalNumberTransformer.init data info = Ok out
      ∧ length out = length (rows data)
      ∧ ∀ i scalar probs, rows data !! i = Some (scalar :: probs) →
          ∃ k μ σ,
            is_argmax probs k
            ∧ [10; 20]%Q !! k = Some μ
            ∧ [1; 3]%Q !! k = Some σ
            ∧ out !! i = Some (scalar * 2 * σ + μ)%Q.
Proof.
  intros data info.
  assert (1 < shape1 data) as H1 by (cbn; lia).
  assert (Forall (λ r, length r = shape1 data) (rows data)) as H2
    by (repeat constructor).
  split; [exact H1|]. split; [exact H2|].
  apply (multimodal_reverse_transform_formula
           MultiModalNumberTransformer.init data info [10; 20]%Q [1; 3]%Q);
    [reflexivity|reflexivity|exact H1|exact H2|cbn; lia|cbn; lia].
Defined.

Lemma multimodal_transform_clipped_witness :
  let features := Array2 1 [[1 # 2]; [99 # 100]; [- (99 # 100)]]%Q in
  let probs := Array2 5 [[1; 0; 0; 0; 0]; [0; 1; 0; 0; 0]; [1; 0; 0; 0; 0]]%Q in
  MultiModalNumberTransformer.transform (H := toy_external)
    MultiModalNumberTransformer.init toy_data
  = Ok (features, probs, [0; 10; 20; 30; 40]%Q, [1; 1; 1; 1; 1]%Q)
  ∧ ∃ v p k μ σ,
      rows features !! 1 = Some [v]
      ∧ rows probs !! 1 = Some p
      ∧ is_argmax p k
      ∧ [0; 10; 20; 30; 40]%Q !! k = Some μ
      ∧ [1; 1; 1; 1; 1]%Q !! k = Some σ
      ∧ (MultiModalNumberTransformer.clip_lo <= v)%Q
      ∧ (v <= MultiModalNumberTransformer.clip_hi)%Q
      ∧ ((MultiModalNumberTransformer.clip_hi < (100 - μ) / (2 * σ))%Q →
         v = MultiModalNumberTransformer.clip_hi)
      ∧ (((100 - μ) / (2 * σ) < MultiModalNumberTransformer.clip_lo)%Q →
         v = MultiModalNumberTransformer.clip_lo)
      ∧ ((MultiModalNumberTransformer.clip_lo <= (100 - μ) / (2 * σ))%Q →
         ((100 - μ) / (2 * σ) <= MultiModalNumberTransformer.clip_hi)%Q →
         (v == (100 - μ) / (2 * σ))%Q).
Proof.
  intros features probs.
  assert (MultiModalNumberTransformer.transform (H := toy_external)
            MultiModalNumberTransformer.init toy_data
          = Ok (features, probs, [0; 10; 20; 30; 40]%Q, [1; 1; 1; 1; 1]%Q))
    as Ht by (vm_compute; reflexivity).
  split; [exact Ht|].
  exact (proj2 (proj2 (proj2
    (multimodal_transform_clipped MultiModalNumberTransformer.init toy_data
       features probs _ _ Ht))) 1 100%Q eq_refl).
Defined.

Lemma fit_atomic_witness :
  let self := Preprocessor.Build [1] (Some metadata_ab) in
  Preprocessor.fit (H := toy_external) self table_text_as_number
  = (Raise ValueError, self)
  ∧ (Preprocessor.fit (H := toy_external) self table_text_as_number).2 = self.
Proof.
  intros self.
  assert (Preprocessor.fit (H := toy_external) self table_text_as_number
          = (Raise ValueError,
             (Preprocessor.fit (H := toy_external) self table_text_as_number).2))
    as Hfit by (vm_compute; reflexivity).
  split; [vm_compute; reflexivity|].
  exact (fit_atomic (H := toy_external) self table_text_as_number
           (Raise ValueError) _ Hfit).
Defined.

Lemma no_continuous_columns_all_categorical_witness :
  let tbl : TransformedTable :=
    {[ "f00" := Array2 1 [[1]; [0]]%Q; "f01" := Array2 1 [[0]; [0]]%Q ]} in
  let dets := [category_info ["a"; "b"] 2; category_info ["x"] 1] in
  (∀ i, i < size table_two → is_Some (table_two !! i))
  ∧ (∃ tbl' self',
       Preprocessor.fit_transform (H := toy_external)
         (Preprocessor.init None None) table_two true
       = (Ok tbl', self'))
  ∧ Preprocessor.fit_transform (H := toy_external)
      (Preprocessor.init None None) table_two true
    = (Ok tbl, Preprocessor.Build [] (Some (MkMetadata 2 dets)))
  ∧ ∃ dets',
      Preprocessor.Build [] (Some (MkMetadata 2 dets))
      = Preprocessor.Build [] (Some (MkMetadata (size table_two) dets'))
      ∧ length dets' = size table_two
      ∧ Forall (λ info, type_ info = "category") dets'
      ∧ ∀ i, i < size table_two →
          ∃ col features mapping k,
            table_two !! i = Some col
            ∧ CategoricalTransformer.transform
                (astype_str (H := toy_external) col)
              = Ok (features, mapping, k)
            ∧ tbl !! fkey i = Some features
            ∧ dets' !! i = Some (category_info mapping k).
Proof.
  intros tbl dets.
  assert (∀ i, i < size table_two → is_Some (table_two !! i)) as Hlabels.
  { intros i Hi. change (size table_two) with 2 in Hi.
    destruct i as [|[|i]]; [by eexists|by eexists|lia]. }
  assert (Preprocessor.fit_transform (H := toy_external)
            (Preprocessor.init None None) table_two true
          = (Ok tbl, Preprocessor.Build [] (Some (MkMetadata 2 dets)))) as Hft
    by (vm_compute; reflexivity).
  split; [exact Hlabels|]. split.
  - exact (proj1 (no_continuous_columns_all_categorical (H := toy_external)
                    None table_two) Hlabels).
  - split; [exact Hft|].
    exact (proj2 (no_continuous_columns_all_categorical (H := toy_external)
                    None table_two) _ _ Hft).
Defined.

(** ** CategoricalTransformer: the vocabulary and the codes *)

Lemma StronglySorted_lookup_lt {A} (R : relation A) (l : list A) i j x y :
  StronglySorted R l → i < j → l !! i = Some x → l !! j = Some y → R x y.
Proof.
  intros Hl. revert i j.
  induction Hl as [|a l Hl IH Ha]; intros i j Hij Hi Hj; [done|].
  destruct j as [|j]; [lia|]. destruct i as [|i]; cbn in Hi, Hj.
  - injection Hi as <-. rewrite Forall_forall in Ha. apply Ha.
    by eapply list_elem_of_lookup_2.
  - apply (IH i j); [lia|done..].
Qed.

Lemma np_unique_ext (data data' : list string) :
  (∀ x, x ∈ data ↔ x ∈ data') → np_unique data = np_unique data'.
Proof.
  intros Heq. apply (Sorted_unique String.le); [apply Sorted_np_unique..|].
  apply NoDup_Permutation; [apply NoDup_np_unique..|].
  intros x. by rewrite !elem_of_np_unique.
Qed.

Lemma Q_of_nat_inj (c d : nat) : Q_of_nat c = Q_of_nat d → c = d.
Proof. unfold Q_of_nat, inject_Z. intros [= Heq]. lia. Qed.

Lemma Q_of_nat_le (c d : nat) : (Q_of_nat c <= Q_of_nat d)%Q ↔ (c ≤ d)%nat.
Proof. unfold Q_of_nat, inject_Z, Qle. cbn. lia. Qed.

Lemma Q_as_index_Some (x : Q) (i : nat) :
  Q_as_index x = Some i ↔ (x == Q_of_nat i)%Q.
Proof.
  destruct x as [a b]. unfold Q_as_index, Q_of_nat, inject_Z, Qeq. cbn.
  rewrite Z.mul_1_r. split.
  - destruct (a mod Z.pos b =? 0)%Z eqn:Hmod; cbn; [|done].
    destruct (0 <=? a)%Z eqn:Hnn; cbn; [|done].
    apply Z.eqb_eq in Hmod. apply Z.leb_le in Hnn. intros [= <-].
    rewrite Z2Nat.id by (apply Z.div_pos; lia).
    rewrite Z.mul_comm. apply Z.div_exact; [lia|done].
  - intros ->. rewrite Z.mod_mul by lia. rewrite Z.div_mul by lia.
    cbn. replace (0 <=? Z.of_nat i * Z.pos b)%Z with true.
    + cbn. by rewrite Nat2Z.id.
    + symmetry. apply Z.leb_le. lia.
Qed.

Lemma mapM_or_raise_Raise {A B} (e : exn) (g : A → option B) (l : list A) :
  ¬ Forall (λ x, is_Some (g x)) l →
  mapM (λ x, or_raise e (g x)) l = Raise e.
Proof.
  induction l as [|x l IH]; intros Hn.
  - destruct Hn. constructor.
  - rewrite mapM_cons. destruct (g x) as [y|] eqn:Hy; cbn -[mapM]; [|done].
    rewrite IH; [done|]. intros Hl. apply Hn. constructor; [by eexists|done].
Qed.

(** X1. The vocabulary that [CategoricalTransformer.transform] returns is
    sorted, has no value twice and holds exactly the values of the column;
    the count it returns is the length of the vocabulary; the encoded
    column has one row per value, and the code on a row is the position of
    the value of that row in the vocabulary. *)
Theorem categorical_transform_vocabulary (data : list string) :
  ∃ features mapping k,
    CategoricalTransformer.transform data = Ok (features, mapping, k)
    ∧ Sorted String.le mapping
    ∧ NoDup mapping
    ∧ (∀ x, x ∈ mapping ↔ x ∈ data)
    ∧ k = length mapping
    ∧ shape1 features = 1
    ∧ length (rows features) = length data
    ∧ ∀ i x, data !! i = Some x →
        ∃ c, rows features !! i = Some [Q_of_nat c]
             ∧ c < k
             ∧ mapping !! c = Some x.
Proof.
  destruct (categorical_transform_Ok data) as (v & Ht & HF).
  eexists _, _, _. split; [exact Ht|].
  split; [apply Sorted_np_unique|]. split; [apply NoDup_np_unique|].
  split; [apply elem_of_np_unique|]. split; [done|]. split; [done|].
  split. { cbn. rewrite !length_fmap. symmetry. by eapply Forall2_length. }
  intros i x Hi.
  destruct (Forall2_lookup_l _ _ _ _ _ HF Hi) as (c & Hc & Hx).
  exists c. split. { cbn. by rewrite !list_lookup_fmap, Hc. }
  split; [by eapply lookup_lt_Some|done].
Qed.

(** X2. The codes follow the values: two rows hold the same value exactly
    when they hold the same code, and the code of a row is below that of
    another exactly when its value is below the other value in the order of
    strings. *)
Theorem categorical_codes_follow_values
    (data : list string) (features : ndarray) (mapping : list string) (k : nat)
    (i j : nat) (x y : string) (p q : Q) :
  CategoricalTransformer.transform data = Ok (features, mapping, k) →
  data !! i = Some x → data !! j = Some y →
  rows features !! i = Some [p] → rows features !! j = Some [q] →
  (x = y ↔ p = q) ∧ (String.le x y ↔ (p <= q)%Q).
Proof.
  intros Ht Hi Hj Hp Hq.
  destruct (categorical_transform_Ok data) as (v & Ht' & HF).
  rewrite Ht in Ht'. injection Ht' as -> -> ->.
  destruct (Forall2_lookup_l _ _ _ _ _ HF Hi) as (c & Hc & Hx).
  destruct (Forall2_lookup_l _ _ _ _ _ HF Hj) as (d & Hd & Hy).
  cbn in Hp, Hq. rewrite !list_lookup_fmap, Hc in Hp.
  rewrite !list_lookup_fmap, Hd in Hq. cbn in Hp, Hq.
  injection Hp as <-. injection Hq as <-.
  pose proof (NoDup_np_unique data) as Hnd.
  pose proof (Sorted_StronglySorted _ _ (Sorted_np_unique data)) as Hs.
  assert (x = y ↔ c = d) as Heq.
  { split; [|by intros ->; congruence].
    intros ->. by eapply NoDup_lookup. }
  split.
  - rewrite Heq. split; [by intros ->|apply Q_of_nat_inj].
  - rewrite Q_of_nat_le. split.
    + intros Hxy. destruct (decide (c ≤ d)%nat) as [|Hdc]; [done|].
      assert (String.le y x) as Hyx
        by (apply (StronglySorted_lookup_lt _ _ d c _ _ Hs); [lia|done..]).
      assert (x = y) as Hxy' by by apply (anti_symm String.le).
      apply Heq in Hxy'. lia.
    + intros Hcd. destruct (decide (c = d)) as [->|Hne].
      * assert (x = y) as -> by congruence. done.
      * apply (StronglySorted_lookup_lt _ _ c d _ _ Hs); [lia|done..].
Qed.

(** X3. The vocabulary depends on the set of the values alone: two columns
    with the same distinct values, in whatever order and however often,
    get the same vocabulary and the same count. *)
Theorem categorical_mapping_of_value_set (data data' : list string) :
  (∀ x, x ∈ data ↔ x ∈ data') →
  ∃ features features' mapping k,
    CategoricalTransformer.transform data = Ok (features, mapping, k)
    ∧ CategoricalTransformer.transform data' = Ok (features', mapping, k).
Proof.
  intros Heq.
  destruct (categorical_transform_Ok data) as (v & Ht & _).
  destruct (categorical_transform_Ok data') as (v' & Ht' & _).
  rewrite <- (np_unique_ext data data' Heq) in Ht'.
  by eexists _, _, _, _.
Qed.

(** X4. A column that is not empty and holds one value throughout gets the
    vocabulary of that value alone, the count [1], and the code [0] on
    every row. *)
Theorem categorical_single_value (data : list string) (x : string) :
  data ≠ [] → (∀ y, y ∈ data → y = x) →
  CategoricalTransformer.transform data
  = Ok (reshape_col (replicate (length data) 0%Q), [x], 1).
Proof.
  intros Hne Hall.
  assert (np_unique data = [x]) as Hu.
  { rewrite (np_unique_ext data [x]); [reflexivity|].
    intros y. rewrite list_elem_of_singleton. split; [apply Hall|].
    intros ->. destruct data as [|z data]; [done|].
    rewrite <- (Hall z) by left. left. }
  destruct (categorical_transform_Ok data) as (v & -> & HF).
  rewrite Hu in *. cbn. do 3 f_equal.
  assert (v = replicate (length data) 0) as ->.
  { apply list_eq_same_length with (length data);
      [by rewrite length_replicate|by rewrite <- (Forall2_length _ _ _ HF)|].
    intros i c c' Hi Hc Hc'.
    apply lookup_replicate in Hc' as [-> _].
    destruct (Forall2_lookup_r _ _ _ _ _ HF Hc) as (y & _ & Hy).
    apply lookup_lt_Some in Hy. cbn in Hy. lia. }
  by rewrite fmap_replicate.
Qed.

(** X5. For an array of shape [(n, 1)] and a description with a mapping,
    [CategoricalTransformer.reverse_transform] returns exactly when every
    entry is an integer that is a position of the mapping, and then gives
    the value at that position for each entry; any other entry (a negative
    number, a fraction, a position past the end) makes it raise
    [KeyError]: nothing is clamped. *)
Theorem categorical_reverse_transform_domain
    (data : ndarray) (info : column_info) (m : list string) :
  mapping info = Some m →
  shape1 data = 1 →
  let in_mapping := λ (x : Q) (s : string),
    ∃ i, (x == Q_of_nat i)%Q ∧ m !! i = Some s in
  (Forall (λ x, ∃ s, in_mapping x s) (flat data) →
   ∃ out,
     CategoricalTransformer.reverse_transform data info = Ok out
     ∧ Forall2 in_mapping (flat data) out)
  ∧ (¬ Forall (λ x, ∃ s, in_mapping x s) (flat data) →
     CategoricalTransformer.reverse_transform data info = Raise KeyError).
Proof.
  intros Hm Hshape in_mapping.
  unfold CategoricalTransformer.reverse_transform.
  assert (check_inputs data = Ok ()) as ->
    by (unfold check_inputs; by rewrite decide_True).
  rewrite Hm. cbn -[mapM].
  assert (∀ x s, Q_as_index x ≫= (py_dict (enumerate m) !!.) = Some s
                 ↔ in_mapping x s) as Hlook.
  { intros x s. unfold in_mapping. split.
    - destruct (Q_as_index x) as [i|] eqn:Hi; cbn; [|done].
      rewrite py_dict_enumerate_lookup. intros Hs. exists i.
      split; [by apply Q_as_index_Some|done].
    - intros (i & Hi%Q_as_index_Some & Hs). rewrite Hi. cbn.
      by rewrite py_dict_enumerate_lookup. }
  split.
  - intros HF.
    match goal with
    | |- ∃ _, mapM ?f ?l = _ ∧ _ => destruct (mapM_is_Ok f l) as [out Hout]
    end.
    { intros x Hx. rewrite Forall_forall in HF. destruct (HF x Hx) as [s Hs].
      apply Hlook in Hs. rewrite Hs. by exists s. }
    exists out. split; [done|].
    apply mapM_Ok_Forall2 in Hout. eapply Forall2_impl; [exact Hout|].
    intros x s Hs%or_raise_Ok_inv. by apply Hlook.
  - intros HF. apply mapM_or_raise_Raise. intros HF'. apply HF.
    eapply Forall_impl; [exact HF'|]. intros x [s Hs]. exists s.
    by apply Hlook.
Qed.

(** ** MultiModalNumberTransformer: what it returns, and the way back *)

(** [reverse_transform] on rows that are a scalar followed by
    probabilities whose maximum is at a position of the means and of the
    standard deviations. *)
Lemma multimodal_reverse_transform_rows
    (self : MultiModalNumberTransformer.t) (data : ndarray) (info : column_info)
    (mean std : list Q) :
  means info = Some mean →
  stds info = Some std →
  1 < shape1 data →
  Forall (λ r, ∃ scalar probs k,
            r = scalar :: probs ∧ np_argmax probs = Ok k
            ∧ k < length mean ∧ k < length std) (rows data) →
  ∃ out,
    MultiModalNumberTransformer.reverse_transform self data info = Ok out
    ∧ length out = length (rows data)
    ∧ ∀ i scalar probs, rows data !! i = Some (scalar :: probs) →
        ∃ k μ σ,
          np_argmax probs = Ok k
          ∧ mean !! k = Some μ
          ∧ std !! k = Some σ
          ∧ out !! i = Some (scalar * 2 * σ + μ)%Q.
Proof.
  intros Hmean Hstd Hshape Hrows.
  unfold MultiModalNumberTransformer.reverse_transform.
  destruct (mapM_is_Ok (λ r : list Q, or_raise IndexError (r !! 0)) (rows data))
    as [features Hfeatures].
  { intros r Hr. rewrite Forall_forall in Hrows.
    destruct (Hrows r Hr) as (scalar & probs & k & -> & _). cbn. eauto. }
  unfold column_at. rewrite decide_True by lia. rewrite Hfeatures. cbn -[mapM].
  destruct (mapM_is_Ok np_argmax (drop 1 <$> rows data)) as [p_argmax Hargmax].
  { intros v (r & -> & Hr)%list_elem_of_fmap. rewrite Forall_forall in Hrows.
    destruct (Hrows r Hr) as (scalar & probs & k & -> & Hk & _). cbn. eauto. }
  unfold np_argmax_axis1. cbn -[mapM]. rewrite decide_False by lia.
  rewrite Hargmax, Hmean, Hstd. cbn -[mapM].
  apply mapM_Ok_Forall2 in Hfeatures, Hargmax.
  assert (Forall (λ k, k < length mean ∧ k < length std) p_argmax) as Hk.
  { apply Forall_lookup. intros i k Hi.
    destruct (Forall2_lookup_r _ _ _ _ _ Hargmax Hi) as (v & Hv & Hvk).
    apply list_lookup_fmap_Some in Hv as (r & -> & Hr).
    destruct (Forall_lookup_1 _ _ _ _ Hrows Hr)
      as (scalar & probs & k' & -> & Hk' & Hlt).
    cbn in Hvk. rewrite drop_0 in Hvk. rewrite Hvk in Hk'.
    by injection Hk' as <-. }
  destruct (mapM_is_Ok (λ k, or_raise IndexError (mean !! k)) p_argmax)
    as [select_mean Hsm].
  { intros k Hin. rewrite Forall_forall in Hk. destruct (Hk k Hin) as [Hl _].
    destruct (lookup_lt_is_Some_2 mean k Hl) as [μ ->]. by exists μ. }
  destruct (mapM_is_Ok (λ k, or_raise IndexError (std !! k)) p_argmax)
    as [select_std Hss].
  { intros k Hin. rewrite Forall_forall in Hk. destruct (Hk k Hin) as [_ Hl].
    destruct (lookup_lt_is_Some_2 std k Hl) as [σ ->]. by exists σ. }
  rewrite Hsm, Hss. cbn -[mapM]. eexists. split; [done|].
  apply mapM_Ok_Forall2 in Hsm, Hss.
  pose proof (Forall2_length _ _ _ Hfeatures) as Lf.
  pose proof (Forall2_length _ _ _ Hargmax) as La.
  pose proof (Forall2_length _ _ _ Hsm) as Lm.
  pose proof (Forall2_length _ _ _ Hss) as Ls.
  rewrite length_fmap in La.
  split. { rewrite length_zip_with, length_zip. lia. }
  intros i scalar probs Hi.
  destruct (Forall2_lookup_l _ _ _ _ _ Hfeatures Hi) as (f & Hf & Hf0).
  cbn in Hf0. injection Hf0 as <-.
  assert ((drop 1 <$> rows data) !! i = Some probs) as Hp
    by by rewrite list_lookup_fmap, Hi.
  destruct (Forall2_lookup_l _ _ _ _ _ Hargmax Hp) as (k & Hpk & Hkp).
  destruct (Forall2_lookup_l _ _ _ _ _ Hsm Hpk) as (μ & Hμ & Hkμ).
  destruct (Forall2_lookup_l _ _ _ _ _ Hss Hpk) as (σ & Hσ & Hkσ).
  apply or_raise_Ok_inv in Hkμ, Hkσ.
  exists k, μ, σ. split; [done|]. split; [done|]. split; [done|].
  apply lookup_zip_with_Some. exists scalar, (σ, μ). split; [done|].
  split; [done|]. by apply lookup_zip_Some.
Qed.

Section multimodal_block.
Context `{External}.
Import MultiModalNumberTransformer.

(** When [transform] returns, every row of the data has a first entry and
    there is at least one mode. *)
Lemma multimodal_transform_column self data features probs means stds :
  transform self data = Ok (features, probs, means, stds) →
  num_modes self ≠ 0
  ∧ ∀ i r, rows data !! i = Some r → ∃ x, r !! 0 = Some x.
Proof.
  intros Ht. unfold transform in Ht.
  inv_bind Ht. inv_bind Ht. inv_bind Ht. inv_bind Ht. inv_bind Ht.
  inv_bind Ht. clear Ht.
  unfold np_argmax_axis1 in Hx4. cbn -[mapM] in Hx4.
  destruct (decide (num_modes self = 0)); [done|]. split; [done|].
  unfold column_at in Hx3. destruct (decide (0 < shape1 data)); [|done].
  apply mapM_Ok_Forall2 in Hx3. intros i r Hr.
  destruct (Forall2_lookup_l _ _ _ _ _ Hx3 Hr) as (y & _ & Hy).
  apply or_raise_Ok_inv in Hy. eauto.
Qed.

(** The block that [fit_transform] stores for a continuous column: the
    scalar of each row followed by its responsibilities. *)
Lemma multimodal_block_rows self data features probs means stds :
  transform self data = Ok (features, probs, means, stds) →
  ∃ block,
    np_concatenate_axis1 features probs = Ok block
    ∧ shape1 block = 1 + num_modes self
    ∧ length (rows block) = length (rows data)
    ∧ ∀ i r x, rows data !! i = Some r → r !! 0 = Some x →
        ∃ p k μ σ,
          rows probs !! i = Some p
          ∧ np_argmax p = Ok k
          ∧ means !! k = Some μ
          ∧ stds !! k = Some σ
          ∧ rows block !! i
            = Some (np_clip ((x - μ) / (2 * σ)) clip_lo clip_hi :: p).
Proof.
  intros Ht.
  destruct (multimodal_transform_rows _ _ _ _ _ _ Ht)
    as (model & fs & Hfit & -> & -> & Lm & Ls & -> & -> & Lf & Hrows).
  unfold np_concatenate_axis1. cbn.
  rewrite decide_True by (rewrite !length_fmap; lia).
  eexists. split; [done|]. cbn. split; [done|].
  split. { rewrite length_zip_with, !length_fmap. lia. }
  intros i r x Hr Hr0.
  destruct (Hrows i r x Hr Hr0) as (k & μ & σ & Hk & Hμ & Hσ & Hfs).
  exists (predict_proba model r), k, μ, σ.
  split; [by rewrite list_lookup_fmap, Hr|]. repeat (split; [done|]).
  apply lookup_zip_with_Some. eexists [_], _. split; [done|].
  split; [by rewrite !list_lookup_fmap, Hfs|by rewrite list_lookup_fmap, Hr].
Qed.
End multimodal_block.

(** X6. [MultiModalNumberTransformer.transform] returns whenever the data
    has shape [(n, 1)], the mixture is fitted, and the fitted model has
    one mean, one covariance and one responsibility per mode; the block
    that [fit_transform] then builds from the scalars and the
    responsibilities has [n] rows of [1 + num_modes] entries. *)
Theorem multimodal_transform_returns `{External}
    (self : MultiModalNumberTransformer.t) (data : ndarray)
    (model : GaussianMixture) :
  let modes := MultiModalNumberTransformer.num_modes self in
  shape1 data = 1 →
  Forall (λ r, length r = 1) (rows data) →
  modes ≠ 0 →
  GaussianMixture_fit modes data = Ok model →
  length (means_ model) = modes →
  length (covariances_ model) = modes →
  Forall (λ r, length (predict_proba model r) = modes) (rows data) →
  ∃ features probs block,
    MultiModalNumberTransformer.transform self data
    = Ok (features, probs, means_ model, np_sqrt <$> covariances_ model)
    ∧ np_concatenate_axis1 features probs = Ok block
    ∧ shape1 block = 1 + modes
    ∧ length (rows block) = length (rows data)
    ∧ Forall (λ r, length r = 1 + modes) (rows block).
Proof.
  intros modes Hshape Hrows Hmodes Hfit Lm Lc Hprobs. unfold modes in *.
  destruct (multimodal_transform_Ok self data model) as (features & probs & Ht);
    [done..|].
  destruct (multimodal_block_rows _ _ _ _ _ _ Ht)
    as (block & Hb & Hsb & Hlen & Hbrows).
  destruct (multimodal_transform_rows _ _ _ _ _ _ Ht)
    as (model' & fs & Hfit' & _ & _ & _ & _ & -> & _).
  rewrite Hfit in Hfit'. injection Hfit' as <-.
  eexists _, _, block. split; [exact Ht|]. repeat (split; [done|]).
  apply Forall_lookup. intros i row Hrow.
  destruct (lookup_lt_is_Some_2 (rows data) i) as [r Hr].
  { rewrite <- Hlen. by eapply lookup_lt_Some. }
  pose proof (Forall_lookup_1 _ _ _ _ Hrows Hr) as Hr1.
  destruct r as [|x [|? ?]]; try done.
  destruct (Hbrows i [x] x Hr eq_refl) as (p & k & μ & σ & Hp & _ & _ & _ & Hrow').
  rewrite Hrow in Hrow'. injection Hrow' as ->. cbn. f_equal.
  cbn in Hp. rewrite list_lookup_fmap, Hr in Hp. injection Hp as <-.
  apply (Forall_lookup_1 _ _ _ _ Hprobs Hr).
Qed.

(** X7. Whenever [MultiModalNumberTransformer.transform] returns,
    [reverse_transform] accepts the block built from its scalars and
    responsibilities together with the means and standard deviations it
    returned, and gives one number per row: with the mode that [transform]
    chose for the row, the clipped scalar times twice the standard deviation
    of that mode, plus its mean. *)
Theorem multimodal_round_trip `{External}
    (self self' : MultiModalNumberTransformer.t)
    (data features probs : ndarray) (means stds : list Q) (modes : nat) :
  MultiModalNumberTransformer.transform self data
  = Ok (features, probs, means, stds) →
  let lo := MultiModalNumberTransformer.clip_lo in
  let hi := MultiModalNumberTransformer.clip_hi in
  ∃ block out,
    np_concatenate_axis1 features probs = Ok block
    ∧ MultiModalNumberTransformer.reverse_transform self' block
        (value_info means stds modes) = Ok out
    ∧ length out = length (rows data)
    ∧ ∀ i r x, rows data !! i = Some r → r !! 0 = Some x →
        ∃ p k μ σ,
          rows probs !! i = Some p
          ∧ is_argmax p k
          ∧ means !! k = Some μ
          ∧ stds !! k = Some σ
          ∧ out !! i = Some (np_clip ((x - μ) / (2 * σ)) lo hi * 2 * σ + μ)%Q.
Proof.
  intros Ht lo hi.
  destruct (multimodal_block_rows _ _ _ _ _ _ Ht)
    as (block & Hb & Hsb & Hlen & Hbrows).
  destruct (multimodal_transform_column _ _ _ _ _ _ Ht) as [Hmodes Hcol].
  destruct (multimodal_reverse_transform_rows self' block
              (value_info means stds modes) means stds eq_refl eq_refl)
    as (out & Hout & Hlout & Hrows); [lia| |].
  { apply Forall_lookup. intros i row Hrow.
    destruct (lookup_lt_is_Some_2 (rows data) i) as [r Hr].
    { rewrite <- Hlen. by eapply lookup_lt_Some. }
    destruct (Hcol i r Hr) as [x Hx].
    destruct (Hbrows i r x Hr Hx) as (p & k & μ & σ & _ & Hk & Hμ & Hσ & Hrow').
    rewrite Hrow in Hrow'. injection Hrow' as ->.
    eexists _, p, k. split; [done|]. split; [done|].
    split; by eapply lookup_lt_Some. }
  exists block, out. split; [done|]. split; [done|]. split; [lia|].
  intros i r x Hr Hx.
  destruct (Hbrows i r x Hr Hx) as (p & k & μ & σ & Hp & Hk & Hμ & Hσ & Hrow).
  destruct (Hrows i _ p Hrow) as (k' & μ' & σ' & Hk' & Hμ' & Hσ' & Hi).
  rewrite Hk in Hk'. injection Hk' as <-.
  rewrite Hμ in Hμ'. injection Hμ' as <-.
  rewrite Hσ in Hσ'. injection Hσ' as <-.
  exists p, k, μ, σ. split; [done|]. split; [by apply np_argmax_spec|].
  split; [done|]. by split.
Qed.

(** X8. [MultiModalNumberTransformer.reverse_transform] needs a scalar
    column and at least one probability column: on an array without
    columns it raises [IndexError], and on an array with the scalar column
    alone it raises [ValueError], whatever the description holds. *)
Theorem multimodal_reverse_transform_needs_probabilities
    (self : MultiModalNumberTransformer.t) (data : ndarray) (info : column_info) :
  (shape1 data ≤ 1)%nat →
  Forall (λ r, length r = shape1 data) (rows data) →
  MultiModalNumberTransformer.reverse_transform self data info
  = Raise (if decide (shape1 data = 0) then IndexError else ValueError).
Proof.
  intros Hshape Hrows. unfold MultiModalNumberTransformer.reverse_transform.
  unfold column_at. destruct (decide (shape1 data = 0)) as [Hz|Hnz].
  - by rewrite decide_False by lia.
  - rewrite decide_True by lia.
    destruct (mapM_is_Ok (λ r : list Q, or_raise IndexError (r !! 0)) (rows data))
      as [features ->].
    { intros r Hr. rewrite Forall_forall in Hrows. specialize (Hrows r Hr).
      destruct r as [|x r]; cbn in *; [lia|eauto]. }
    cbn -[mapM]. unfold np_argmax_axis1. cbn -[mapM].
    by rewrite decide_True by lia.
Qed.

(** ** Preprocessor: the metadata that fitting stores *)

Lemma check_metadata_Ok (md : Metadata) :
  check_metadata md = Ok ()
  ↔ Forall (λ info, type_ info = "category" ∨ type_ info = "value") (details md).
Proof.
  unfold check_metadata.
  assert (forallb (λ item, bool_decide (type_ item ∈ ["category"; "value"]))
            (details md) = true
          ↔ Forall (λ info, type_ info = "category" ∨ type_ info = "value")
              (details md)) as Hiff.
  { induction (details md) as [|info l IH]; cbn.
    - split; [constructor|done].
    - rewrite andb_true_iff, bool_decide_eq_true, Forall_cons, IH.
      rewrite !elem_of_cons, elem_of_nil. tauto. }
  destruct (forallb _ _); split; intros Hx; try done.
  - by apply Hiff.
  - apply Hiff in Hx. done.
Qed.

Lemma check_metadata_Raise (md : Metadata) (e : exn) :
  check_metadata md = Raise e → e = AssertionError.
Proof. unfold check_metadata. destruct (forallb _ _); by intros [= ]. Qed.

Lemma py_dict_enumerate_size {A} (l : list A) :
  size (py_dict (enumerate l)) = length l.
Proof.
  induction l as [|x l IH] using rev_ind; [done|].
  rewrite enumerate_snoc, py_dict_snoc, length_app. cbn.
  rewrite map_size_insert_None, IH; [lia|].
  rewrite py_dict_enumerate_lookup. by apply lookup_ge_None_2.
Qed.

Lemma store_blocks_lookup_Some (tbl : TransformedTable) l rs key block :
  store_blocks tbl l rs !! key = Some block →
  tbl !! key = Some block ∨ ∃ i, i ∈ l ∧ key = fkey i.
Proof.
  revert tbl rs. induction l as [|a l IH]; intros tbl rs; [by left|].
  destruct rs as [|b rs]; [by left|]. rewrite store_blocks_cons.
  intros [Hk|(i & Hi & ->)]%IH.
  - destruct (decide (fkey a = key)) as [<-|Hne].
    + right. exists a. split; [left|done].
    + left. by rewrite lookup_insert_ne in Hk.
  - right. exists i. split; [by right|done].
Qed.

Section preprocessor_metadata.
Context `{External}.
Import Preprocessor.

Lemma fit_column_continuous self data i r :
  i ∈ continuous_columns self →
  fit_column self data i = Ok r →
  ∃ l features probs means stds block,
    data !! i = Some (NumColumn l)
    ∧ MultiModalNumberTransformer.transform continous_transformer (reshape_col l)
      = Ok (features, probs, means, stds)
    ∧ np_concatenate_axis1 features probs = Ok block
    ∧ r = (block, value_info means stds 5).
Proof.
  intros Hi. unfold fit_column. rewrite decide_True by done.
  destruct (data !! i) as [[l|l]|]; cbn; [|done..].
  destruct (MultiModalNumberTransformer.transform _ _)
    as [[[[features probs] means] stds]|] eqn:Ht; cbn; [|done].
  destruct (np_concatenate_axis1 features probs) as [block|] eqn:Hb; cbn;
    [|done].
  intros [= <-]. by exists l, features, probs, means, stds, block.
Qed.

Lemma fit_column_not_continuous self data i r :
  i ∉ continuous_columns self →
  fit_column self data i = Ok r →
  ∃ col features mapping k,
    data !! i = Some col
    ∧ CategoricalTransformer.transform (astype_str col)
      = Ok (features, mapping, k)
    ∧ r = (features, category_info mapping k).
Proof.
  intros Hi. unfold fit_column. rewrite decide_False by done.
  destruct (data !! i) as [col|]; cbn; [|done].
  destruct (CategoricalTransformer.transform _) as [[[f m] k]|] eqn:Ht;
    cbn; [|done].
  intros [= <-]. by exists col, f, m, k.
Qed.

(** What a successful [fit_transform] has computed: a block and a
    description per column position. *)
Lemma fit_transform_Ok_columns self data tbl self' :
  fit_transform self data true = (Ok tbl, self') →
  ∃ rs,
    tbl = store_blocks ∅ (seq 0 (size data)) rs
    ∧ self' = Build (continuous_columns self)
                (Some (MkMetadata (size data) rs.*2))
    ∧ length rs = size data
    ∧ ∀ i r, rs !! i = Some r → fit_column self data i = Ok r.
Proof.
  unfold fit_transform. rewrite fit_transform_loop.
  destruct (mapM _ _) as [rs|e] eqn:Hrs; cbn; [|by intros [= ]].
  intros [= <- <-]. exists rs. split; [done|]. split; [done|].
  apply mapM_Ok_Forall2 in Hrs.
  pose proof (Forall2_length _ _ _ Hrs) as Hlen. rewrite length_seq in Hlen.
  split; [done|]. intros i r Hr.
  destruct (Forall2_lookup_r _ _ _ _ _ Hrs Hr) as (i' & Hi' & Hfc).
  by apply lookup_seq in Hi' as [-> _].
Qed.
End preprocessor_metadata.

(** X9. The metadata that a successful [fit_transform] stores describes
    the table it was given: [num_features] and the number of descriptions
    are the number of columns, [check_metadata] accepts it, a column listed
    in [continuous_columns] is a ["value"] with five means and five standard
    deviations and a block of six columns, any other column is a
    ["category"] whose count is the length of its sorted, duplicate free
    mapping and whose block has one column; and the table holds a block
    under the key of each column position and under no other key. *)
Theorem fit_transform_metadata_invariants `{External}
    (self : Preprocessor.t) (data : DataFrame)
    (tbl : TransformedTable) (self' : Preprocessor.t) :
  Preprocessor.fit_transform self data true = (Ok tbl, self') →
  ∃ md,
    self' = Preprocessor.Build (Preprocessor.continuous_columns self) (Some md)
    ∧ num_features md = size data
    ∧ length (details md) = size data
    ∧ check_metadata md = Ok ()
    ∧ (∀ key, is_Some (tbl !! key) → ∃ i, i < size data ∧ key = fkey i)
    ∧ ∀ i, i < size data →
        ∃ info block,
          details md !! i = Some info
          ∧ tbl !! fkey i = Some block
          ∧ if decide (i ∈ Preprocessor.continuous_columns self)
            then ∃ ms ss, info = value_info ms ss 5
                          ∧ length ms = 5 ∧ length ss = 5
                          ∧ shape1 block = 6
            else ∃ m, info = category_info m (length m)
                      ∧ NoDup m ∧ Sorted String.le m
                      ∧ shape1 block = 1.
Proof.
  intros (rs & -> & -> & Hlen & Hrs)%fit_transform_Ok_columns.
  assert (∀ i r, rs !! i = Some r →
    if decide (i ∈ Preprocessor.continuous_columns self)
    then ∃ ms ss, r.2 = value_info ms ss 5 ∧ length ms = 5 ∧ length ss = 5
                  ∧ shape1 r.1 = 6
    else ∃ m, r.2 = category_info m (length m) ∧ NoDup m ∧ Sorted String.le m
              ∧ shape1 r.1 = 1) as Hkind.
  { intros i r Hr. specialize (Hrs i r Hr). case_decide as Hi.
    - apply fit_column_continuous in Hrs
        as (l & f & p & ms & ss & block & _ & Ht & Hb & ->); [|done].
      destruct (multimodal_block_rows _ _ _ _ _ _ Ht) as (b' & Hb' & Hsb & _).
      rewrite Hb in Hb'. injection Hb' as <-.
      apply multimodal_transform_rows in Ht
        as (_ & _ & _ & _ & _ & Lm & Ls & _).
      by exists ms, ss.
    - apply fit_column_not_continuous in Hrs
        as (col & f & m & k & _ & Ht & ->); [|done].
      destruct (categorical_transform_Ok (astype_str col)) as (v & Ht' & _).
      rewrite Ht in Ht'. injection Ht' as -> -> ->.
      exists (np_unique (astype_str col)). split; [done|].
      split; [apply NoDup_np_unique|]. split; [apply Sorted_np_unique|done]. }
  eexists. split; [done|]. cbn. split; [done|].
  split; [by rewrite length_fmap|]. split.
  { apply check_metadata_Ok. cbn. apply Forall_lookup. intros i info Hi.
    apply list_lookup_fmap_Some in Hi as (r & -> & Hr).
    specialize (Hkind i r Hr). case_decide.
    - destruct Hkind as (ms & ss & -> & _). by right.
    - destruct Hkind as (m & -> & _). by left. }
  split.
  { intros key [block [Hk|(i & Hi%elem_of_seq & ->)]%store_blocks_lookup_Some].
    - by rewrite lookup_empty in Hk.
    - exists i. split; [lia|done]. }
  intros i Hi.
  destruct (lookup_lt_is_Some_2 rs i) as [r Hr]; [lia|].
  exists r.2, r.1. split; [by rewrite list_lookup_fmap, Hr|]. split.
  { apply (store_blocks_lookup ∅ (seq 0 (size data)) rs i i r);
      [apply NoDup_seq|by apply lookup_seq_lt|done]. }
  apply (Hkind i r Hr).
Qed.

(** ** The number of columns *)

(** C3, as amended.  No method compares the number of columns of its
    argument with [metadata.num_features].  [reverse_transform] reads the
    keys [f00 .. f(num_features - 1)] and nothing else: when the key of
    column [i] is missing it raises [KeyError], unless the loop has raised
    on a column before [i], and then it raises what that column raised; any
    other key of the table is ignored.  [transform] does not read the
    metadata at all: whenever it returns, the instance is as it was and the
    table holds a block for each column position of its argument and under
    no other key, however many columns the metadata describes; and without
    continuous columns it returns for every table with the default
    labels. *)
Theorem column_count_is_not_checked `{External}
    (self : Preprocessor.t) (md : Metadata) (data : TransformedTable) :
  Preprocessor.metadata self = Some md →
  (∀ i, i < num_features md → data !! fkey i = None →
     Preprocessor.reverse_transform self data
     = match for_each (Preprocessor.reverse_transform_body md data)
               (seq 0 i) (None, []) with
       | Ok _ => Raise KeyError
       | Raise e => Raise e
       end)
  ∧ (∀ data' : TransformedTable,
       (∀ i, i < num_features md → data' !! fkey i = data !! fkey i) →
       Preprocessor.reverse_transform self data'
       = Preprocessor.reverse_transform self data)
  ∧ (∀ (df : DataFrame) md',
       (Preprocessor.transform self df).1
       = (Preprocessor.transform
            (Preprocessor.Build (Preprocessor.continuous_columns self) md') df).1)
  ∧ (∀ (df : DataFrame) tbl self',
       Preprocessor.transform self df = (Ok tbl, self') →
       self' = self
       ∧ ∀ key, is_Some (tbl !! key) ↔ ∃ j, j < size df ∧ key = fkey j)
  ∧ (∀ df : DataFrame,
       Preprocessor.continuous_columns self = [] →
       (∀ j, j < size df → is_Some (df !! j)) →
       ∃ tbl, Preprocessor.transform self df = (Ok tbl, self)).
Proof.
  intros Hmd. split; [|split; [|split; [|split]]].
  - intros i. by apply reverse_transform_missing_column.
  - intros data'. by apply reverse_transform_ext.
  - intros df md'. destruct self as [cc md0].
    apply fit_transform_ignores_metadata.
  - intros df tbl self' Ht. unfold Preprocessor.transform in Ht.
    assert (self' = self) as ->.
    { rewrite <- (fit_transform_not_fitting self df). by rewrite Ht. }
    split; [done|].
    assert ((Preprocessor.fit_transform self df true).1 = Ok tbl) as Hfit.
    { destruct self as [cc m].
      rewrite (fit_transform_ignores_metadata cc m m df true false).
      by rewrite Ht. }
    destruct (Preprocessor.fit_transform self df true) as [r s] eqn:Hft.
    cbn in Hfit. subst r.
    apply fit_transform_Ok_columns in Hft as (rs & -> & _ & Hlen & _).
    intros key. split.
    + intros [block [Hk|(j & Hj%elem_of_seq & ->)]%store_blocks_lookup_Some].
      * by rewrite lookup_empty in Hk.
      * exists j. split; [lia|done].
    + intros (j & Hj & ->).
      destruct (lookup_lt_is_Some_2 rs j) as [r Hr]; [lia|].
      exists r.1.
      apply (store_blocks_lookup ∅ (seq 0 (size df)) rs j j r);
        [apply NoDup_seq|by apply lookup_seq_lt|done].
  - intros df Hcc Hlabels.
    unfold Preprocessor.transform, Preprocessor.fit_transform.
    rewrite fit_transform_loop.
    destruct (mapM_is_Ok (Preprocessor.fit_column self df) (seq 0 (size df)))
      as [rs ->]; [|cbn; eauto].
    intros i Hi%elem_of_seq. apply fit_column_categorical_Ok; [done|].
    apply Hlabels. lia.
Qed.

Lemma column_count_is_not_checked_witness :
  Preprocessor.metadata (Preprocessor.Build [] (Some metadata_unsupported))
  = Some metadata_unsupported
  ∧ 1 < num_features metadata_unsupported
  ∧ encoded_one !! fkey 1 = None
  ∧ Preprocessor.reverse_transform
      (Preprocessor.Build [] (Some metadata_unsupported)) encoded_one
    = Raise KeyError.
Proof.
  assert (encoded_one !! fkey 1 = None) as Hk by (vm_compute; reflexivity).
  assert (1 < num_features metadata_unsupported) as Hlt by (cbn; lia).
  split; [reflexivity|]. split; [exact Hlt|]. split; [exact Hk|].
  etrans.
  - exact (proj1 (column_count_is_not_checked (H := toy_external)
             (Preprocessor.Build [] (Some metadata_unsupported))
             metadata_unsupported encoded_one eq_refl) 1 Hlt Hk).
  - vm_compute. reflexivity.
Defined.

(** ** Preprocessor.reverse_transform on metadata that [check_metadata] accepts *)

Lemma bind_Raise_inv {A B} (m : result A) (f : A → result B) (e : exn) :
  m ≫= f = Raise e → m = Raise e ∨ ∃ a, m = Ok a ∧ f a = Raise e.
Proof. destruct m as [a|e']; cbn; [eauto|]. intros [= ->]. by left. Qed.

Section raise_facts.
Context {A B : Type}.

Lemma mapM_Raise_inv (f : A → result B) (l : list A) (e : exn) :
  mapM f l = Raise e → ∃ x, x ∈ l ∧ f x = Raise e.
Proof.
  induction l as [|x l IH]; [done|]. rewrite mapM_cons.
  intros [Hx|(y & _ & Hl)]%bind_Raise_inv.
  - exists x. split; [left|done].
  - apply bind_Raise_inv in Hl as [Hl|(k & _ & Hk)]; [|done].
    destruct (IH Hl) as (z & Hz & Hfz). exists z. split; [by right|done].
Qed.

Lemma fmap_Raise_inv (g : A → B) (m : result A) (e : exn) :
  g <$> m = Raise e → m = Raise e.
Proof. destruct m; cbn; [done|]. by intros [= ->]. Qed.

Lemma fmap_Ok_inv (g : A → B) (m : result A) (b : B) :
  g <$> m = Ok b → ∃ a, m = Ok a ∧ b = g a.
Proof. destruct m as [a|]; cbn; [|done]. intros [= <-]. eauto. Qed.
End raise_facts.

Lemma or_raise_Raise_inv {A} (e e' : exn) (o : option A) :
  or_raise e o = Raise e' → e' = e.
Proof. destruct o; cbn; congruence. Qed.

Lemma mapM_or_raise_Raise_inv {A B} (e e' : exn) (g : A → option B) (l : list A) :
  mapM (λ x, or_raise e (g x)) l = Raise e' → e' = e.
Proof. intros (x & _ & Hx)%mapM_Raise_inv. by eapply or_raise_Raise_inv. Qed.

Lemma multimodal_reverse_transform_Raise self data info e :
  MultiModalNumberTransformer.reverse_transform self data info = Raise e →
  e ∈ [KeyError; IndexError; ValueError].
Proof.
  unfold MultiModalNumberTransformer.reverse_transform.
  intros [He|(features & _ & He)]%bind_Raise_inv.
  { unfold column_at in He. destruct (decide _).
    - apply mapM_or_raise_Raise_inv in He as ->. set_solver.
    - injection He as <-. set_solver. }
  cbv zeta in He. apply bind_Raise_inv in He as [He|(p_argmax & _ & He)].
  { unfold np_argmax_axis1 in He. destruct (decide _).
    - injection He as <-. set_solver.
    - apply mapM_Raise_inv in He as (v & _ & Hv).
      destruct v; cbn in Hv; [|done]. injection Hv as <-. set_solver. }
  apply bind_Raise_inv in He as [He|(mean & _ & He)].
  { apply or_raise_Raise_inv in He as ->. set_solver. }
  apply bind_Raise_inv in He as [He|(std & _ & He)].
  { apply or_raise_Raise_inv in He as ->. set_solver. }
  apply bind_Raise_inv in He as [He|(sm & _ & He)].
  { apply mapM_or_raise_Raise_inv in He as ->. set_solver. }
  apply bind_Raise_inv in He as [He|(ss & _ & He)]; [|done].
  apply mapM_or_raise_Raise_inv in He as ->. set_solver.
Qed.

Lemma categorical_reverse_transform_Raise data info e :
  CategoricalTransformer.reverse_transform data info = Raise e →
  e ∈ [KeyError; IndexError; ValueError].
Proof.
  unfold CategoricalTransformer.reverse_transform.
  intros [He|([] & _ & He)]%bind_Raise_inv.
  { unfold check_inputs in He. destruct (decide _); [done|].
    injection He as <-. set_solver. }
  apply bind_Raise_inv in He as [He|(m & _ & He)].
  { apply or_raise_Raise_inv in He as ->. set_solver. }
  cbv zeta in He. apply mapM_or_raise_Raise_inv in He as ->. set_solver.
Qed.

Lemma pd_DataFrame_Raise table e :
  pd_DataFrame table = Raise e → e = ValueError.
Proof.
  unfold pd_DataFrame. destruct table as [|c table]; [done|].
  destruct (forallb _ _); by intros [= ].
Qed.

Lemma pd_DataFrame_Ok table df :
  pd_DataFrame table = Ok df → df = py_dict (enumerate table).
Proof.
  unfold pd_DataFrame. destruct table as [|c table]; [by intros [= <-]|].
  destruct (forallb _ _); by intros [= ].
Qed.

Lemma pd_DataFrame_same_length table r :
  Forall (λ c, column_length c = r) table →
  pd_DataFrame table = Ok (py_dict (enumerate table)).
Proof.
  intros Hall. unfold pd_DataFrame. destruct table as [|c table]; [done|].
  replace (forallb _ (c :: table)) with true; [done|].
  symmetry. apply forallb_forall. intros c' Hc'%list_elem_of_In.
  apply bool_decide_eq_true. rewrite Forall_forall in Hall.
  rewrite (Hall c') by done. symmetry. apply Hall. left.
Qed.

Section reverse_supported.
Import Preprocessor.

Lemma reverse_transform_body_supported md data c table i :
  Forall (λ info, type_ info = "category" ∨ type_ info = "value") (details md) →
  reverse_transform_body md data (c, table) i
  = col ← reverse_column md data i; Ok (Some col, table ++ [col]).
Proof.
  intros Hsup. unfold reverse_transform_body, reverse_column.
  destruct (data !! fkey i) as [block|]; cbn; [|done].
  destruct (details md !! i) as [info|] eqn:Hinfo; cbn; [|done].
  pose proof (Forall_lookup_1 _ _ _ _ Hsup Hinfo) as Htype.
  destruct (decide (type_ info = "value")) as [Hv|Hv];
    destruct (decide (type_ info = "category")) as [Hc|Hc].
  - rewrite Hv in Hc. done.
  - by destruct (MultiModalNumberTransformer.reverse_transform _ _ _).
  - cbn. by destruct (CategoricalTransformer.reverse_transform _ _).
  - by destruct Htype.
Qed.

Lemma reverse_transform_loop_supported md data l c table :
  Forall (λ info, type_ info = "category" ∨ type_ info = "value") (details md) →
  snd <$> for_each (reverse_transform_body md data) l (c, table)
  = (λ cols, table ++ cols) <$> mapM (reverse_column md data) l.
Proof.
  intros Hsup. revert c table.
  induction l as [|i l IH]; intros c table.
  - cbn. by rewrite app_nil_r.
  - rewrite for_each_cons, mapM_cons, reverse_transform_body_supported by done.
    destruct (reverse_column md data i) as [col|e]; cbn -[mapM]; [|done].
    rewrite IH. destruct (mapM _ l) as [cols|e]; cbn; [|done].
    by rewrite <- app_assoc.
Qed.

Lemma reverse_transform_supported self md data :
  metadata self = Some md →
  check_metadata md = Ok () →
  reverse_transform self data
  = cols ← mapM (reverse_column md data) (seq 0 (num_features md));
    pd_DataFrame cols.
Proof.
  intros Hmd Hsup%check_metadata_Ok. unfold reverse_transform.
  rewrite Hmd. cbn -[mapM].
  pose proof (reverse_transform_loop_supported md data
                (seq 0 (num_features md)) None [] Hsup) as Hloop.
  destruct (for_each _ _ _) as [[c table]|e];
    destruct (mapM _ _) as [cols|e']; cbn in Hloop; try done.
  - by injection Hloop as ->.
  - by injection Hloop as ->.
Qed.

Lemma reverse_column_Raise md data i e :
  reverse_column md data i = Raise e → e ∈ [KeyError; IndexError; ValueError].
Proof.
  unfold reverse_column.
  intros [He|(block & _ & He)]%bind_Raise_inv.
  { apply or_raise_Raise_inv in He as ->. set_solver. }
  apply bind_Raise_inv in He as [He|(info & _ & He)].
  { apply or_raise_Raise_inv in He as ->. set_solver. }
  destruct (decide _); apply fmap_Raise_inv in He.
  - by eapply multimodal_reverse_transform_Raise.
  - by eapply categorical_reverse_transform_Raise.
Qed.
End reverse_supported.

(** X11. With metadata that [check_metadata] accepts,
    [Preprocessor.reverse_transform] never meets the unbound local: the
    only exceptions it raises are [KeyError], [IndexError] and [ValueError];
    and when it returns, the table has exactly the columns
    [0 .. num_features - 1], column [i] being what the transformer named by
    the type of the [i]-th description decodes from the block under the
    [i]-th key. *)
Theorem reverse_transform_with_accepted_metadata
    (self : Preprocessor.t) (md : Metadata) (data : TransformedTable) :
  Preprocessor.metadata self = Some md →
  check_metadata md = Ok () →
  match Preprocessor.reverse_transform self data with
  | Raise e => e ∈ [KeyError; IndexError; ValueError]
  | Ok df =>
      (∀ i, (num_features md ≤ i)%nat → df !! i = None)
      ∧ ∀ i, i < num_features md →
          ∃ block info,
            data !! fkey i = Some block
            ∧ details md !! i = Some info
            ∧ ((type_ info = "value"
                ∧ ∃ c, MultiModalNumberTransformer.reverse_transform
                         Preprocessor.continous_transformer block info = Ok c
                       ∧ df !! i = Some (NumColumn c))
               ∨ (type_ info = "category"
                  ∧ ∃ c, CategoricalTransformer.reverse_transform block info
                         = Ok c
                         ∧ df !! i = Some (StrColumn c)))
  end.
Proof.
  intros Hmd Hcheck. rewrite (reverse_transform_supported self md data Hmd Hcheck).
  apply check_metadata_Ok in Hcheck.
  destruct (mapM _ _) as [cols|e] eqn:Hcols; cbn -[mapM].
  - destruct (pd_DataFrame cols) as [df|e] eqn:Hdf.
    + apply pd_DataFrame_Ok in Hdf as ->.
      apply mapM_Ok_Forall2 in Hcols.
      pose proof (Forall2_length _ _ _ Hcols) as Hlen.
      rewrite length_seq in Hlen. split.
      { intros i Hi. rewrite py_dict_enumerate_lookup.
        apply lookup_ge_None_2. lia. }
      intros i Hi.
      destruct (Forall2_lookup_l _ _ _ i i Hcols) as (col & Hcol & Hrc);
        [by apply lookup_seq_lt|].
      unfold reverse_column in Hrc.
      apply bind_Ok_inv in Hrc as (block & Hblock%or_raise_Ok_inv & Hrc).
      apply bind_Ok_inv in Hrc as (info & Hinfo%or_raise_Ok_inv & Hrc).
      exists block, info. split; [done|]. split; [done|].
      rewrite py_dict_enumerate_lookup.
      destruct (decide (type_ info = "value")) as [Hv|Hv].
      * left. split; [done|].
        apply fmap_Ok_inv in Hrc as (c & Hc & ->). by exists c.
      * right. destruct (Forall_lookup_1 _ _ _ _ Hcheck Hinfo); [|done].
        split; [done|].
        apply fmap_Ok_inv in Hrc as (c & Hc & ->). by exists c.
    + apply pd_DataFrame_Raise in Hdf as ->. set_solver.
  - apply mapM_Raise_inv in Hcols as (i & _ & Hi).
    by eapply reverse_column_Raise.
Qed.

(** X12. [npz_to_csv] checks the metadata first: when some description has
    a type other than ["category"] and ["value"] it raises
    [AssertionError] before it decodes anything, and otherwise it builds
    the table that [Preprocessor.reverse_transform] builds from the same
    metadata and arrays. *)
Theorem npz_to_csv_checks_then_decodes
    (md : Metadata) (data : TransformedTable) (cc : list nat) :
  npz_to_csv md data
  = if decide (Forall (λ info, type_ info = "category" ∨ type_ info = "value")
                 (details md))
    then Preprocessor.reverse_transform (Preprocessor.Build cc (Some md)) data
    else Raise AssertionError.
Proof.
  unfold npz_to_csv. destruct (check_metadata md) as [[]|e] eqn:Hcheck.
  - rewrite decide_True by by apply check_metadata_Ok.
    unfold Preprocessor.reverse_transform. cbn.
    by rewrite (for_each_ext (npz_to_csv_body md data)
                  (Preprocessor.reverse_transform_body md data)).
  - rewrite decide_False.
    + apply check_metadata_Raise in Hcheck as ->. done.
    + intros Hsup%check_metadata_Ok. congruence.
Qed.

Lemma astype_str_length `{External} (c : column) :
  length (astype_str c) = column_length c.
Proof. destruct c; cbn; [by rewrite length_fmap|done]. Qed.

(** X10. On a table of categorical columns with the default labels,
    fitting and then reversing gives the table back: a [Preprocessor] built
    without [continuous_columns] fits any such table, and
    [reverse_transform] of the table [fit_transform] returned is the
    original table with every value in its string form. *)
Theorem preprocessor_categorical_round_trip `{External}
    (md : option Metadata) (cols : list column) (r : nat) :
  Forall (λ c, column_length c = r) cols →
  ∃ tbl self',
    Preprocessor.fit_transform (Preprocessor.init None md)
      (py_dict (enumerate cols)) true
    = (Ok tbl, self')
    ∧ Preprocessor.reverse_transform self' tbl
      = Ok (py_dict (enumerate ((λ c, StrColumn (astype_str c)) <$> cols))).
Proof.
  intros Hlen. set (self := Preprocessor.init None md).
  set (data := py_dict (enumerate cols) : DataFrame).
  assert (size data = length cols) as Hsize by apply py_dict_enumerate_size.
  assert (∀ i, data !! i = cols !! i) as Hdata
    by (intros i; apply py_dict_enumerate_lookup).
  destruct (mapM_is_Ok (Preprocessor.fit_column self data) (seq 0 (size data)))
    as [rs Hrs].
  { intros i Hi%elem_of_seq. apply fit_column_categorical_Ok; [done|].
    rewrite Hdata. apply lookup_lt_is_Some_2. lia. }
  set (tbl := store_blocks ∅ (seq 0 (size data)) rs).
  set (md' := MkMetadata (size data) rs.*2).
  exists tbl, (Preprocessor.Build [] (Some md')). split.
  { unfold Preprocessor.fit_transform. by rewrite fit_transform_loop, Hrs. }
  apply mapM_Ok_Forall2 in Hrs.
  pose proof (Forall2_length _ _ _ Hrs) as Hlrs. rewrite length_seq in Hlrs.
  assert (∀ i c, cols !! i = Some c →
    ∃ f m k, rs !! i = Some (f, category_info m k)
             ∧ CategoricalTransformer.reverse_transform f (category_info m k)
               = Ok (astype_str c)) as Hcol.
  { intros i c Hc.
    destruct (Forall2_lookup_l _ _ _ i i Hrs) as (ri & Hri & Hfc).
    { apply lookup_seq_lt. apply lookup_lt_Some in Hc. lia. }
    apply (fit_column_categorical self) in Hfc
      as (col & f & m & k & Hcol & Ht & ->); [|done].
    rewrite Hdata, Hc in Hcol. injection Hcol as <-.
    exists f, m, k. split; [done|].
    destruct (categorical_transform_Ok (astype_str c)) as (v & Ht' & HF).
    rewrite Ht in Ht'. injection Ht' as -> -> ->.
    by apply categorical_decode_indices. }
  assert (check_metadata md' = Ok ()) as Hcheck.
  { apply check_metadata_Ok. cbn. apply Forall_lookup. intros i info Hi.
    apply list_lookup_fmap_Some in Hi as (ri & -> & Hri).
    destruct (lookup_lt_is_Some_2 cols i) as [c Hc].
    { apply lookup_lt_Some in Hri. lia. }
    destruct (Hcol i c Hc) as (f & m & k & Hri' & _).
    rewrite Hri in Hri'. injection Hri' as ->. by left. }
  rewrite (reverse_transform_supported (Preprocessor.Build [] (Some md'))
             md' tbl eq_refl Hcheck).
  assert (mapM (reverse_column md' tbl) (seq 0 (num_features md'))
          = Ok ((λ c, StrColumn (astype_str c)) <$> cols)) as ->.
  { apply mapM_Ok_Forall2. apply Forall2_same_length_lookup_2.
    { rewrite length_seq, length_fmap. cbn. lia. }
    intros i i' col [-> Hi]%lookup_seq Hcolumn. cbn in Hi.
    apply list_lookup_fmap_Some in Hcolumn as (c & -> & Hc).
    destruct (Hcol i c Hc) as (f & m & k & Hri & Hrev).
    unfold reverse_column, tbl.
    rewrite (store_blocks_lookup ∅ (seq 0 (size data)) rs i i
               (f, category_info m k));
      [|apply NoDup_seq|by apply lookup_seq_lt|done].
    cbn. rewrite list_lookup_fmap, Hri. cbn.
    rewrite decide_False by done. by rewrite Hrev. }
  cbn. apply (pd_DataFrame_same_length _ r).
  apply Forall_fmap. eapply Forall_impl; [exact Hlen|].
  intros c Hc. cbn. by rewrite astype_str_length.
Qed.

(** ** NpDataFlow *)

Lemma zip_star_cons_cons {A} (l l' : list A) (ls : list (list A)) :
  zip_star (l :: l' :: ls) = zip_with cons l (zip_star (l' :: ls)).
Proof. reflexivity. Qed.

Lemma zip_star_length {A} (ls : list (list A)) (r : nat) :
  ls ≠ [] → Forall (λ l, length l = r) ls → length (zip_star ls) = r.
Proof.
  induction ls as [|l ls IH]; [done|]. intros _ [Hl Hls]%Forall_cons.
  destruct ls as [|l' ls]; [cbn; by rewrite length_fmap|].
  rewrite zip_star_cons_cons, length_zip_with, IH by done. lia.
Qed.

Lemma zip_star_lookup {A} (ls : list (list A)) (j : nat) (row : list A) :
  ls ≠ [] → Forall2 (λ l x, l !! j = Some x) ls row →
  zip_star ls !! j = Some row.
Proof.
  intros Hne HF. induction HF as [|l x ls row Hx HF IH]; [done|].
  destruct ls as [|l' ls].
  - apply Forall2_nil_inv_l in HF as ->. cbn. by rewrite list_lookup_fmap, Hx.
  - rewrite zip_star_cons_cons. apply lookup_zip_with_Some.
    exists x, row. split; [done|]. split; [done|]. by apply IH.
Qed.

Lemma int32_fits (out_of_range : Q → Q) (x : Q) :
  fits_int32 x = true → int32 out_of_range x = inject_Z (integer_part x).
Proof. unfold int32. by intros ->. Qed.

Lemma column_blocks_rows (out_of_range : Q → Q) (info : column_info)
    (b : ndarray) (j : nat) (br : list Q) :
  rows b !! j = Some br →
  (type_ info ≠ "value" → Forall (λ x, fits_int32 x = true) br) →
  Forall2 (λ l x, l !! j = Some x)
    (rows <$> column_blocks out_of_range info b) (row_parts info br).
Proof.
  intros Hbr Hfits. unfold column_blocks, row_parts.
  destruct (decide (type_ info = "value")) as [Hv|Hv]; cbn.
  - repeat constructor; by rewrite list_lookup_fmap, Hbr.
  - repeat constructor. rewrite list_lookup_fmap, Hbr. cbn. f_equal.
    apply Forall_fmap_ext. eapply Forall_impl; [exact (Hfits Hv)|].
    intros x Hx. by apply int32_fits.
Qed.

Lemma column_blocks_length (out_of_range : Q → Q) (info : column_info)
    (b : ndarray) :
  column_blocks out_of_range info b ≠ []
  ∧ Forall (λ a, length (rows a) = length (rows b))
      (column_blocks out_of_range info b).
Proof.
  unfold column_blocks. destruct (decide (type_ info = "value")); cbn;
    (split; [done|]); repeat constructor; cbn; by rewrite length_fmap.
Qed.

Section npdataflow_init.
Context `{Int32Overflow}.

Lemma npdataflow_init_body (tbl : TransformedTable) (acc : list ndarray)
    (i : nat) (info : column_info) (b : ndarray) :
  tbl !! fkey i = Some b →
  NpDataFlow.init_body (Transformed tbl) acc (i, info)
  = if decide (type_ info = "category" ∨ type_ info = "value")
    then Ok (acc ++ column_blocks (int32_out_of_range i) info b)
    else Raise ValueError.
Proof.
  intros Hb. unfold NpDataFlow.init_body, dataset_getitem, column_blocks.
  rewrite Hb. cbn.
  destruct (decide (type_ info = "value")) as [Hv|Hv].
  - rewrite decide_True by by right. by rewrite <- app_assoc.
  - destruct (decide (type_ info = "category")) as [Hc|Hc].
    + by rewrite decide_True by by left.
    + rewrite decide_False; [done|]. by intros [?|?].
Qed.

(** The loop of [__init__] over columns whose blocks [bs] are in the
    table. *)
Lemma npdataflow_init_loop (tbl : TransformedTable)
    (cs : list (nat * column_info)) (bs : list ndarray) (acc : list ndarray) :
  Forall2 (λ c b, tbl !! fkey c.1 = Some b) cs bs →
  for_each (NpDataFlow.init_body (Transformed tbl)) cs acc
  = if decide (Forall (λ info, type_ info = "category" ∨ type_ info = "value")
                 cs.*2)
    then Ok (acc ++ collected_blocks cs bs)
    else Raise ValueError.
Proof.
  intros HF. revert acc.
  induction HF as [|[i info] b cs bs Hb HF IH]; intros acc.
  - cbn. rewrite decide_True by constructor. by rewrite app_nil_r.
  - rewrite for_each_cons, (npdataflow_init_body tbl acc i info b Hb).
    destruct (decide (type_ info = "category" ∨ type_ info = "value"))
      as [Hs|Hs].
    + cbn -[for_each]. rewrite IH.
      destruct (decide (Forall _ cs.*2)) as [Hss|Hss].
      * rewrite decide_True by by constructor.
        unfold collected_blocks. cbn. by rewrite <- app_assoc.
      * rewrite decide_False; [done|]. by intros [_ ?]%Forall_cons.
    + cbn. rewrite decide_False; [done|]. by intros [? _]%Forall_cons.
Qed.

Lemma collected_blocks_rows (cs : list (nat * column_info)) (bs : list ndarray)
    (brs : list (list Q)) (j : nat) :
  Forall2 (λ b br, rows b !! j = Some br) bs brs →
  Forall2 (λ (c : nat * column_info) br,
             type_ c.2 ≠ "value" → Forall (λ x, fits_int32 x = true) br)
    cs brs →
  Forall2 (λ l x, l !! j = Some x)
    (rows <$> collected_blocks cs bs) (mjoin (zip_with row_parts cs.*2 brs)).
Proof.
  intros HF. revert cs.
  induction HF as [|b br bs brs Hbr HF IH]; intros cs Hfits.
  - apply Forall2_nil_inv_r in Hfits as ->. constructor.
  - apply Forall2_cons_inv_r in Hfits as (c & cs' & Hc & Hcs & ->).
    unfold collected_blocks. cbn. rewrite fmap_app.
    apply Forall2_app; [|by apply IH]. by apply column_blocks_rows.
Qed.

Lemma collected_blocks_length (cs : list (nat * column_info))
    (bs : list ndarray) (r : nat) :
  Forall (λ b, length (rows b) = r) bs →
  Forall (λ l, length l = r) (rows <$> collected_blocks cs bs).
Proof.
  intros HF. revert cs.
  induction HF as [|b bs Hb HF IH]; intros [|c cs]; try constructor.
  unfold collected_blocks. cbn. rewrite fmap_app. apply Forall_app.
  split; [|apply IH]. apply Forall_fmap.
  destruct (column_blocks_length (int32_out_of_range c.1) c.2 b) as [_ Hl].
  eapply Forall_impl; [exact Hl|]. intros a Ha. cbn. by rewrite Ha.
Qed.

Lemma collected_blocks_nonempty (cs : list (nat * column_info))
    (bs : list ndarray) :
  cs ≠ [] → length bs = length cs →
  rows <$> collected_blocks cs bs ≠ [].
Proof.
  destruct cs as [|c cs]; [done|]. destruct bs as [|b bs]; [done|].
  intros _ _. unfold collected_blocks. cbn.
  destruct (column_blocks_length (int32_out_of_range c.1) c.2 b) as [Hne _].
  by destruct (column_blocks _ _ b).
Qed.
End npdataflow_init.

Lemma enumerate_blocks (tbl : TransformedTable) (l : list column_info)
    (bs : list ndarray) :
  length bs = length l →
  (∀ i b, bs !! i = Some b → tbl !! fkey i = Some b) →
  Forall2 (λ (c : nat * column_info) b, tbl !! fkey c.1 = Some b)
    (enumerate l) bs.
Proof.
  intros Hlen Hbs. apply Forall2_same_length_lookup_2.
  { unfold enumerate. by rewrite length_imap. }
  unfold enumerate. intros i [i' info] b Hi Hb.
  rewrite list_lookup_imap in Hi.
  destruct (l !! i); cbn in Hi; [|done]. injection Hi as <- <-.
  cbn. by apply Hbs.
Qed.

Lemma enumerate_snd {A} (l : list A) : (enumerate l).*2 = l.
Proof.
  apply list_eq. intros i. unfold enumerate.
  rewrite list_lookup_fmap, list_lookup_imap. by destruct (l !! i).
Qed.

Lemma blocks_exist (tbl : TransformedTable) (k : nat) :
  (∀ i, i < k → is_Some (tbl !! fkey i)) →
  ∃ bs, length bs = k ∧ ∀ i b, bs !! i = Some b → tbl !! fkey i = Some b.
Proof.
  induction k as [|k IH]; intros Hk.
  - exists []. split; [done|]. intros i b Hi. done.
  - destruct IH as (bs & Hlen & Hbs); [intros i Hi; apply Hk; lia|].
    destruct (Hk k) as [b Hb]; [lia|].
    exists (bs ++ [b]). split; [rewrite length_app; cbn; lia|].
    intros i b' [Hi|[Hi Hb']]%lookup_app_Some; [by apply Hbs|].
    destruct (i - length bs) as [|?] eqn:Hd; cbn in Hb'; [|done].
    injection Hb' as <-. by replace i with k by lia.
Qed.

Lemma rows_at_exist (bs : list ndarray) (j : nat) :
  Forall (λ b, j < length (rows b)) bs →
  ∃ brs, Forall2 (λ b br, rows b !! j = Some br) bs brs.
Proof.
  induction 1 as [|b bs Hb _ [brs IH]]; [by exists []|].
  destruct (lookup_lt_is_Some_2 _ _ Hb) as [br Hbr].
  exists (br :: brs). by constructor.
Qed.

(** X13. When the table holds a block for each description,
    [NpDataFlow.__init__] accepts exactly the metadata that
    [check_metadata] accepts: it returns, keeping the metadata, its
    [num_features] and [shuffle], when every type is ["category"] or
    ["value"], and raises [ValueError] otherwise. *)
Theorem npdataflow_init_accepts_supported_types `{Int32Overflow}
    (tbl : TransformedTable) (md : Metadata) (shuffle : bool) :
  (∀ i, i < length (details md) → is_Some (tbl !! fkey i)) →
  match check_metadata md with
  | Ok _ =>
      ∃ self,
        NpDataFlow.init (Transformed tbl) (Some md) shuffle = Ok self
        ∧ NpDataFlow.metadata self = md
        ∧ NpDataFlow.num_features self = num_features md
        ∧ NpDataFlow.shuffle self = shuffle
  | Raise _ =>
      NpDataFlow.init (Transformed tbl) (Some md) shuffle = Raise ValueError
  end.
Proof.
  intros (bs & Hlen & Hbs)%blocks_exist.
  unfold NpDataFlow.init. cbn -[for_each].
  rewrite (npdataflow_init_loop tbl _ bs) by by apply enumerate_blocks.
  rewrite enumerate_snd.
  destruct (check_metadata md) as [[]|e] eqn:Hcheck.
  - rewrite decide_True by by apply check_metadata_Ok. cbn. by eexists.
  - rewrite decide_False; [done|].
    intros Hsup%check_metadata_Ok. congruence.
Qed.

(** X14. When the blocks of the table all have [r] rows, there is at least
    one column, and every entry of the block of a ["category"] has an
    integer part that fits in 32 bits, the data flow that
    [NpDataFlow.__init__] builds has size [r], and its row [j] is made,
    column after column, of row [j] of each block: its first entry and then
    the rest for a ["value"], the integer parts of its entries for a
    ["category"]. *)
Theorem npdataflow_rows `{Int32Overflow}
    (tbl : TransformedTable) (md : Metadata) (shuffle : bool)
    (self : NpDataFlow.t) (bs : list ndarray) (r : nat) :
  NpDataFlow.init (Transformed tbl) (Some md) shuffle = Ok self →
  details md ≠ [] →
  length bs = length (details md) →
  (∀ i b, bs !! i = Some b → tbl !! fkey i = Some b ∧ length (rows b) = r) →
  (∀ i info b, details md !! i = Some info → type_ info = "category" →
     bs !! i = Some b →
     Forall (Forall (λ x, fits_int32 x = true)) (rows b)) →
  NpDataFlow.size self = r
  ∧ ∀ j, j < r →
      ∃ brs,
        Forall2 (λ b br, rows b !! j = Some br) bs brs
        ∧ NpDataFlow.data self !! j
          = Some (mjoin (zip_with row_parts (details md) brs)).
Proof.
  intros Hinit Hne Hlen Hbs Hfits. unfold NpDataFlow.init in Hinit.
  cbn -[for_each] in Hinit.
  rewrite (npdataflow_init_loop tbl _ bs) in Hinit
    by (apply enumerate_blocks; [done|]; intros i b Hb; by apply Hbs).
  rewrite enumerate_snd in Hinit.
  destruct (decide _) as [Hsup|]; [|done].
  cbn in Hinit. injection Hinit as <-. unfold NpDataFlow.size. cbn.
  assert (Forall (λ b, length (rows b) = r) bs) as Hr.
  { apply Forall_lookup. intros i b Hb. by apply (Hbs i b). }
  assert (enumerate (details md) ≠ []) as Hne'.
  { intros Heq. apply Hne. by rewrite <- (enumerate_snd (details md)), Heq. }
  assert (length bs = length (enumerate (details md))) as Hlen'.
  { unfold enumerate. by rewrite length_imap. }
  split.
  { apply zip_star_length; [by apply collected_blocks_nonempty|].
    by apply collected_blocks_length. }
  intros j Hj. destruct (rows_at_exist bs j) as [brs Hbrs].
  { eapply Forall_impl; [exact Hr|]. intros b Hb. cbn in Hb. lia. }
  exists brs. split; [done|].
  apply zip_star_lookup; [by apply collected_blocks_nonempty|].
  rewrite <- (enumerate_snd (details md)) at 2.
  apply collected_blocks_rows; [done|].
  apply Forall2_same_length_lookup_2.
  { rewrite <- (Forall2_length _ _ _ Hbrs). lia. }
  unfold enumerate. intros i [i' info] br Hi Hbr Hv. cbn in Hv.
  rewrite list_lookup_imap in Hi.
  destruct (details md !! i) as [info'|] eqn:Hinfo; cbn in Hi; [|done].
  injection Hi as <- <-.
  destruct (Forall2_lookup_r _ _ _ _ _ Hbrs Hbr) as (b & Hb & Hrow).
  destruct (Forall_lookup_1 _ _ _ _ Hsup Hinfo) as [Hc|?]; [|done].
  by apply (Forall_lookup_1 _ _ _ _ (Hfits i info' b Hinfo Hc Hb) Hrow).
Qed.

Lemma mapM_Ok_fmap {A B} (f : A → result B) (g : A → B) (l : list A) :
  (∀ x, x ∈ l → f x = Ok (g x)) → mapM f l = Ok (g <$> l).
Proof.
  intros Hf. apply mapM_Ok_Forall2. apply Forall2_fmap_r, Forall_Forall2_diag.
  by apply Forall_forall.
Qed.

(** X15. [get_data] yields every row of the data flow exactly once as long
    as the generator's [shuffle] permutes the indices, and yields the rows
    in their original order when shuffling is off. *)
Theorem npdataflow_get_data
    (rng_shuffle : list nat → list nat) (self : NpDataFlow.t) :
  (∀ l, rng_shuffle l ≡ₚ l) →
  ∃ out,
    NpDataFlow.get_data rng_shuffle self = Ok out
    ∧ out ≡ₚ NpDataFlow.data self
    ∧ (NpDataFlow.shuffle self = false → out = NpDataFlow.data self).
Proof.
  intros Hperm. unfold NpDataFlow.get_data.
  set (d := NpDataFlow.data self).
  set (g := λ k, default [] (d !! k)).
  assert (g <$> seq 0 (length d) = d) as Hd.
  { apply list_eq. intros i. rewrite list_lookup_fmap. unfold g.
    destruct (decide (i < length d)) as [Hi|Hi].
    - rewrite lookup_seq_lt by done. cbn.
      by destruct (lookup_lt_is_Some_2 d i Hi) as [row ->].
    - rewrite lookup_seq_ge by lia. cbn. symmetry.
      apply lookup_ge_None_2. lia. }
  assert (∀ idxs, idxs ≡ₚ seq 0 (length d) →
    mapM (λ k, or_raise IndexError (d !! k)) idxs = Ok (g <$> idxs)) as Hmap.
  { intros idxs Hidxs. apply mapM_Ok_fmap. intros k Hk.
    rewrite Hidxs in Hk. apply elem_of_seq in Hk. unfold g.
    by destruct (lookup_lt_is_Some_2 d k) as [row ->]; [lia|]. }
  destruct (NpDataFlow.shuffle self).
  - exists (g <$> rng_shuffle (seq 0 (length d))).
    split; [by apply Hmap|]. split; [|done].
    by rewrite Hperm, Hd.
  - exists d. rewrite Hmap by done. by rewrite Hd.
Qed.

(** ** load_data *)

(** Fitting a table with the default labels without continuous columns. *)
Lemma fit_transform_categorical_table `{External}
    (md : option Metadata) (cols : list column) :
  ∃ rs,
    Preprocessor.fit_transform (Preprocessor.init None md)
      (py_dict (enumerate cols)) true
    = (Ok (store_blocks ∅ (seq 0 (length cols)) rs),
       Preprocessor.Build [] (Some (MkMetadata (length cols) rs.*2)))
    ∧ length rs = length cols
    ∧ ∀ i c, cols !! i = Some c →
        ∃ v, rs !! i
             = Some (reshape_col (Q_of_nat <$> v),
                     category_info (np_unique (astype_str c))
                       (length (np_unique (astype_str c))))
             ∧ Forall2 (λ x code, np_unique (astype_str c) !! code = Some x)
                 (astype_str c) v.
Proof.
  set (self := Preprocessor.init None md).
  set (data := py_dict (enumerate cols) : DataFrame).
  assert (size data = length cols) as Hsize by apply py_dict_enumerate_size.
  assert (∀ i, data !! i = cols !! i) as Hdata
    by (intros i; apply py_dict_enumerate_lookup).
  destruct (mapM_is_Ok (Preprocessor.fit_column self data) (seq 0 (size data)))
    as [rs Hrs].
  { intros i Hi%elem_of_seq. apply fit_column_categorical_Ok; [done|].
    rewrite Hdata. apply lookup_lt_is_Some_2. lia. }
  exists rs. split.
  { unfold Preprocessor.fit_transform.
    by rewrite fit_transform_loop, Hrs, Hsize. }
  apply mapM_Ok_Forall2 in Hrs.
  pose proof (Forall2_length _ _ _ Hrs) as Hlrs. rewrite length_seq in Hlrs.
  split; [lia|]. intros i c Hc.
  destruct (Forall2_lookup_l _ _ _ i i Hrs) as (ri & Hri & Hfc).
  { apply lookup_seq_lt. apply lookup_lt_Some in Hc. lia. }
  apply (fit_column_categorical self) in Hfc
    as (col & f & m & k & Hcol & Ht & ->); [|done].
  rewrite Hdata, Hc in Hcol. injection Hcol as <-.
  destruct (categorical_transform_Ok (astype_str c)) as (v & Ht' & HF).
  rewrite Ht in Ht'. injection Ht' as -> -> ->.
  by exists v.
Qed.

(** X16. [load_data] does not use its [continuous_columns] argument: with
    preprocessing it fits a [Preprocessor] that has no continuous columns.
    On any table with the default labels it returns a data set whose
    metadata describes every column as a ["category"], whatever
    [continuous_columns] lists, and whose data flow has one row per row of
    the table. *)
Theorem load_data_treats_every_column_as_categorical
    `{External} `{Int32Overflow}
    (cols : list column) (continuous_columns : option (list nat))
    (metadata : option Metadata) :
  ∃ ds m,
    load_data (py_dict (enumerate cols)) continuous_columns true metadata
    = Ok ds
    ∧ TGANDataset.metadata ds = Some m
    ∧ NpDataFlow.metadata (TGANDataset.dataflow ds) = m
    ∧ Preprocessor.continuous_columns (TGANDataset.preprocessor ds) = []
    ∧ num_features m = length cols
    ∧ length (details m) = length cols
    ∧ Forall (λ info, type_ info = "category") (details m)
    ∧ ∀ r, cols ≠ [] → Forall (λ c, column_length c = r) cols →
        NpDataFlow.size (TGANDataset.dataflow ds) = r.
Proof.
  destruct (fit_transform_categorical_table None cols) as (rs & Hfit & Hlen & Hrs).
  unfold load_data. rewrite Hfit. cbn -[for_each].
  set (tbl := store_blocks ∅ (seq 0 (length cols)) rs).
  set (m := MkMetadata (length cols) rs.*2).
  assert (Forall (λ info, type_ info = "category") (details m)) as Hcat.
  { apply Forall_lookup. intros i info Hi.
    apply list_lookup_fmap_Some in Hi as (ri & -> & Hri).
    destruct (lookup_lt_is_Some_2 cols i) as [c Hc].
    { apply lookup_lt_Some in Hri. lia. }
    destruct (Hrs i c Hc) as (v & Hri' & _).
    rewrite Hri in Hri'. by injection Hri' as ->. }
  assert (Forall2 (λ (c : nat * column_info) b, tbl !! fkey c.1 = Some b)
            (enumerate (details m)) rs.*1) as Hkeys.
  { apply enumerate_blocks; [cbn; by rewrite !length_fmap|].
    intros i b Hb. apply list_lookup_fmap_Some in Hb as (ri & -> & Hri).
    apply (store_blocks_lookup ∅ (seq 0 (length cols)) rs i i ri);
      [apply NoDup_seq| |done].
    apply lookup_seq_lt. apply lookup_lt_Some in Hri. lia. }
  unfold TGANDataset.init, NpDataFlow.init. cbn -[for_each].
  change (details m) with rs.*2 in Hkeys.
  rewrite (npdataflow_init_loop tbl _ rs.*1 [] Hkeys), enumerate_snd.
  rewrite decide_True
    by (eapply Forall_impl; [exact Hcat|]; intros info Hi; by left).
  cbn. eexists _, m. split; [done|]. cbn.
  repeat (split; [done|]). split; [by rewrite length_fmap|].
  split; [done|]. intros r Hne Hall. unfold NpDataFlow.size. cbn.
  apply zip_star_length.
  - apply collected_blocks_nonempty;
      [|unfold enumerate; by rewrite length_imap, !length_fmap].
    destruct cols; [done|]. by destruct rs.
  - apply collected_blocks_length. apply Forall_lookup. intros i b Hb.
    apply list_lookup_fmap_Some in Hb as (ri & -> & Hri).
    destruct (lookup_lt_is_Some_2 cols i) as [c Hc].
    { apply lookup_lt_Some in Hri. lia. }
    destruct (Hrs i c Hc) as (v & Hri' & Hv).
    rewrite Hri in Hri'. injection Hri' as ->. cbn.
    rewrite !length_fmap, <- (Forall2_length _ _ _ Hv), astype_str_length.
    by apply (Forall_lookup_1 _ _ _ _ Hall Hc).
Qed.

Lemma int32_of_code (out_of_range : Q → Q) (c : nat) :
  (Z.of_nat c < 2 ^ 31)%Z → int32 out_of_range (Q_of_nat c) = Q_of_nat c.
Proof.
  intros Hc. unfold int32, fits_int32, integer_part, Q_of_nat, inject_Z.
  cbn [Qnum Qden]. rewrite Z.quot_1_r.
  replace (_ && _) with true; [done|].
  symmetry. apply andb_true_intro.
  split; [apply Z.leb_le|apply Z.ltb_lt]; lia.
Qed.

Lemma np_unique_length (data : list string) :
  (length (np_unique data) ≤ length data)%nat.
Proof.
  apply submseteq_length, NoDup_submseteq; [apply NoDup_np_unique|].
  intros x. apply elem_of_np_unique.
Qed.

(** The rows of the blocks of categorical columns, cast to [int32]. *)
Lemma categorical_blocks_rows `{External} `{Int32Overflow}
    (cols : list column) (rs : list (ndarray * column_info))
    (cs : list (nat * column_info)) (j r : nat) :
  cs.*2 = rs.*2 →
  (Z.of_nat r < 2 ^ 31)%Z → j < r →
  Forall (λ c, column_length c = r) cols →
  Forall2 (λ c ri, ∃ v,
             ri = (reshape_col (Q_of_nat <$> v),
                   category_info (np_unique (astype_str c))
                     (length (np_unique (astype_str c))))
             ∧ Forall2 (λ x code, np_unique (astype_str c) !! code = Some x)
                 (astype_str c) v) cols rs →
  ∃ row,
    Forall2 (λ l x, l !! j = Some x)
      (rows <$> collected_blocks cs rs.*1) row
    ∧ Forall2 (λ c part, ∃ x code,
                 astype_str c !! j = Some x
                 ∧ np_unique (astype_str c) !! code = Some x
                 ∧ part = [Q_of_nat code]) cols row.
Proof.
  intros Hcs Hr Hj Hlen HF. revert cs Hcs.
  induction HF as [|c ri cols rs (v & -> & Hv) HF IH]; intros cs Hcs.
  - exists []. split; [|constructor].
    apply fmap_nil_inv in Hcs as ->. constructor.
  - apply Forall_cons in Hlen as [Hc Hlen].
    destruct cs as [|[n info] cs]; [done|]. cbn in Hcs.
    injection Hcs as -> Hcs.
    destruct (IH Hlen cs Hcs) as (row & Hrow & Hparts).
    destruct (lookup_lt_is_Some_2 (astype_str c) j) as [x Hx].
    { rewrite astype_str_length. lia. }
    destruct (Forall2_lookup_l _ _ _ _ _ Hv Hx) as (code & Hcode & Hxc).
    exists ([Q_of_nat code] :: row). split.
    + cbn. constructor; [|done]. cbn.
      rewrite !list_lookup_fmap, Hcode. cbn. rewrite int32_of_code; [done|].
      apply lookup_lt_Some in Hxc. pose proof (np_unique_length (astype_str c)).
      rewrite astype_str_length in *. lia.
    + constructor; [|done]. by exists x, code.
Qed.

(** X17. With preprocessing, the data flow of the data set that
    [load_data] returns holds the table code by code: for a table with the
    default labels, at least one column and [r] rows, [r] below [2^31], row
    [j] of the data flow has one part per column, and the part is the code
    of the value that the column has on row [j], its position in the sorted
    vocabulary of the column. *)
Theorem load_data_rows `{External} `{Int32Overflow}
    (cols : list column) (continuous_columns : option (list nat))
    (metadata : option Metadata) (r : nat) (ds : TGANDataset.t) :
  cols ≠ [] →
  Forall (λ c, column_length c = r) cols →
  (Z.of_nat r < 2 ^ 31)%Z →
  load_data (py_dict (enumerate cols)) continuous_columns true metadata
  = Ok ds →
  ∀ j, j < r →
    ∃ row,
      NpDataFlow.data (TGANDataset.dataflow ds) !! j = Some row
      ∧ Forall2 (λ c part, ∃ x code,
                   astype_str c !! j = Some x
                   ∧ np_unique (astype_str c) !! code = Some x
                   ∧ part = [Q_of_nat code]) cols row.
Proof.
  intros Hne Hall Hr Hload j Hj.
  destruct (fit_transform_categorical_table None cols) as (rs & Hfit & Hlen & Hrs).
  unfold load_data in Hload. rewrite Hfit in Hload. cbn -[for_each] in Hload.
  set (tbl := store_blocks ∅ (seq 0 (length cols)) rs) in *.
  assert (Forall2 (λ (c : nat * column_info) b, tbl !! fkey c.1 = Some b)
            (enumerate rs.*2) rs.*1) as Hkeys.
  { apply enumerate_blocks; [by rewrite !length_fmap|].
    intros i b Hb. apply list_lookup_fmap_Some in Hb as (ri & -> & Hri).
    apply (store_blocks_lookup ∅ (seq 0 (length cols)) rs i i ri);
      [apply NoDup_seq| |done].
    apply lookup_seq_lt. apply lookup_lt_Some in Hri. lia. }
  unfold TGANDataset.init, NpDataFlow.init in Hload.
  cbn -[for_each] in Hload.
  rewrite (npdataflow_init_loop tbl _ rs.*1 [] Hkeys), enumerate_snd in Hload.
  destruct (decide _); [|done]. cbn in Hload. injection Hload as <-. cbn.
  destruct (categorical_blocks_rows cols rs (enumerate rs.*2) j r
              (enumerate_snd rs.*2) Hr Hj Hall)
    as (row & Hrow & Hparts).
  { apply Forall2_same_length_lookup_2; [lia|].
    intros i c ri Hc Hri. destruct (Hrs i c Hc) as (v & Hri' & Hv).
    rewrite Hri in Hri'. injection Hri' as ->. by exists v. }
  exists row. split; [|done].
  apply zip_star_lookup; [|done].
  apply collected_blocks_nonempty;
    [|unfold enumerate; by rewrite length_imap, !length_fmap].
  destruct cols; [done|]. by destruct rs.
Qed.

(** ** The further theorems at concrete inputs *)

Lemma categorical_codes_follow_values_witness :
  CategoricalTransformer.transform ["b"; "a"; "b"]
  = Ok (Array2 1 [[1]; [0]; [1]]%Q, ["a"; "b"], 2)
  ∧ ("b" = "a" ↔ 1%Q = 0%Q) ∧ (String.le "b" "a" ↔ (1 <= 0)%Q).
Proof.
  assert (CategoricalTransformer.transform ["b"; "a"; "b"]
          = Ok (Array2 1 [[1]; [0]; [1]]%Q, ["a"; "b"], 2)) as Ht
    by (vm_compute; reflexivity).
  split; [exact Ht|].
  exact (categorical_codes_follow_values ["b"; "a"; "b"] _ _ _ 0 1 "b" "a"
           1%Q 0%Q Ht eq_refl eq_refl eq_refl eq_refl).
Defined.

Lemma categorical_mapping_of_value_set_witness :
  (∀ x : string, x ∈ ["b"; "a"; "b"] ↔ x ∈ ["a"; "b"])
  ∧ ∃ features features' mapping k,
      CategoricalTransformer.transform ["b"; "a"; "b"]
      = Ok (features, mapping, k)
      ∧ CategoricalTransformer.transform ["a"; "b"]
        = Ok (features', mapping, k).
Proof.
  assert (∀ x : string, x ∈ ["b"; "a"; "b"] ↔ x ∈ ["a"; "b"]) as Hset.
  { intros x. rewrite !elem_of_cons, !elem_of_nil. tauto. }
  split; [exact Hset|].
  exact (categorical_mapping_of_value_set _ _ Hset).
Defined.

Lemma categorical_single_value_witness :
  ["z"; "z"; "z"] ≠ ([] : list string)
  ∧ CategoricalTransformer.transform ["z"; "z"; "z"]
    = Ok (reshape_col (replicate 3 0%Q), ["z"], 1).
Proof.
  split; [discriminate|].
  apply (categorical_single_value ["z"; "z"; "z"] "z"); [discriminate|].
  intros y. rewrite !elem_of_cons, elem_of_nil. tauto.
Defined.

Lemma categorical_reverse_transform_domain_witness :
  mapping (category_info ["a"; "b"] 2) = Some ["a"; "b"]
  ∧ (∃ out,
       CategoricalTransformer.reverse_transform (Array2 1 [[1]; [0]]%Q)
         (category_info ["a"; "b"] 2) = Ok out
       ∧ Forall2 (λ (x : Q) (s : string),
                    ∃ i, (x == Q_of_nat i)%Q ∧ ["a"; "b"] !! i = Some s)
           [1; 0]%Q out)
  ∧ CategoricalTransformer.reverse_transform (Array2 1 [[0]; [2]]%Q)
      (category_info ["a"; "b"] 2) = Raise KeyError.
Proof.
  split; [reflexivity|]. split.
  - apply (proj1 (categorical_reverse_transform_domain
                    (Array2 1 [[1]; [0]]%Q) (category_info ["a"; "b"] 2)
                    ["a"; "b"] eq_refl eq_refl)).
    repeat constructor.
    + exists "b", 1. split; reflexivity.
    + exists "a", 0. split; reflexivity.
  - apply (proj2 (categorical_reverse_transform_domain
                    (Array2 1 [[0]; [2]]%Q) (category_info ["a"; "b"] 2)
                    ["a"; "b"] eq_refl eq_refl)).
    intros [_ [(s & i & Hq & Hs) _]%Forall_cons]%Forall_cons.
    unfold Qeq, Q_of_nat in Hq. cbn in Hq.
    assert (i = 2) as -> by lia. discriminate Hs.
Defined.

Lemma multimodal_transform_returns_witness :
  GaussianMixture_fit (External := toy_external) 5 toy_data = Ok toy_model
  ∧ ∃ features probs block,
      MultiModalNumberTransformer.transform (H := toy_external)
        MultiModalNumberTransformer.init toy_data
      = Ok (features, probs, means_ toy_model,
            np_sqrt (External := toy_external) <$> covariances_ toy_model)
      ∧ np_concatenate_axis1 features probs = Ok block
      ∧ shape1 block = 1 + 5
      ∧ length (rows block) = length (rows toy_data)
      ∧ Forall (λ r, length r = 1 + 5) (rows block).
Proof.
  split; [reflexivity|].
  apply (multimodal_transform_returns (H := toy_external)
           MultiModalNumberTransformer.init toy_data toy_model);
    [reflexivity|repeat constructor|discriminate|reflexivity|reflexivity
    |reflexivity|repeat constructor].
Defined.

Lemma multimodal_round_trip_witness :
  let features := Array2 1 [[1 # 2]; [99 # 100]; [- (99 # 100)]]%Q in
  let probs := Array2 5 [[1; 0; 0; 0; 0]; [0; 1; 0; 0; 0]; [1; 0; 0; 0; 0]]%Q in
  let means := [0; 10; 20; 30; 40]%Q in
  let stds := [1; 1; 1; 1; 1]%Q in
  MultiModalNumberTransformer.transform (H := toy_external)
    MultiModalNumberTransformer.init toy_data
  = Ok (features, probs, means, stds)
  ∧ ∃ block out,
      np_concatenate_axis1 features probs = Ok block
      ∧ MultiModalNumberTransformer.reverse_transform
          MultiModalNumberTransformer.init block (value_info means stds 5)
        = Ok out
      ∧ length out = length (rows toy_data)
      ∧ ∀ i r x, rows toy_data !! i = Some r → r !! 0 = Some x →
          ∃ p k μ σ,
            rows probs !! i = Some p
            ∧ is_argmax p k
            ∧ means !! k = Some μ
            ∧ stds !! k = Some σ
            ∧ out !! i
              = Some (np_clip ((x - μ) / (2 * σ))
                        MultiModalNumberTransformer.clip_lo
                        MultiModalNumberTransformer.clip_hi * 2 * σ + μ)%Q.
Proof.
  intros features probs means stds.
  assert (MultiModalNumberTransformer.transform (H := toy_external)
            MultiModalNumberTransformer.init toy_data
          = Ok (features, probs, means, stds)) as Ht
    by (vm_compute; reflexivity).
  split; [exact Ht|].
  exact (multimodal_round_trip (H := toy_external)
           MultiModalNumberTransformer.init MultiModalNumberTransformer.init
           toy_data features probs means stds 5 Ht).
Defined.

Lemma multimodal_reverse_transform_needs_probabilities_witness :
  (shape1 (Array2 1 [[1 # 2]; [1 # 3]]%Q) ≤ 1)%nat
  ∧ MultiModalNumberTransformer.reverse_transform
      MultiModalNumberTransformer.init (Array2 1 [[1 # 2]; [1 # 3]]%Q)
      (value_info [0]%Q [1]%Q 1)
    = Raise ValueError.
Proof.
  split; [cbn; lia|].
  apply (multimodal_reverse_transform_needs_probabilities
           MultiModalNumberTransformer.init (Array2 1 [[1 # 2]; [1 # 3]]%Q)
           (value_info [0]%Q [1]%Q 1)); [cbn; lia|repeat constructor].
Defined.

Lemma fit_transform_metadata_invariants_witness :
  let self := Preprocessor.Build [1] None in
  ∃ tbl self',
    Preprocessor.fit_transform (H := toy_external) self table_mixed true
    = (Ok tbl, self')
    ∧ ∃ md,
        self' = Preprocessor.Build [1] (Some md)
        ∧ num_features md = size table_mixed
        ∧ length (details md) = size table_mixed
        ∧ check_metadata md = Ok ()
        ∧ (∀ key, is_Some (tbl !! key) →
             ∃ i, i < size table_mixed ∧ key = fkey i)
        ∧ ∀ i, i < size table_mixed →
            ∃ info block,
              details md !! i = Some info
              ∧ tbl !! fkey i = Some block
              ∧ if decide (i ∈ [1])
                then ∃ ms ss, info = value_info ms ss 5
                              ∧ length ms = 5 ∧ length ss = 5
                              ∧ shape1 block = 6
                else ∃ m, info = category_info m (length m)
                          ∧ NoDup m ∧ Sorted String.le m
                          ∧ shape1 block = 1.
Proof.
  intros self.
  assert (∃ tbl self',
            Preprocessor.fit_transform (H := toy_external) self table_mixed true
            = (Ok tbl, self')) as (tbl & self' & Hfit)
    by (eexists _, _; vm_compute; reflexivity).
  exists tbl, self'. split; [exact Hfit|].
  exact (fit_transform_metadata_invariants (H := toy_external)
           self table_mixed tbl self' Hfit).
Defined.

Lemma preprocessor_categorical_round_trip_witness :
  Forall (λ c, column_length c = 2) columns_mixed
  ∧ ∃ tbl self',
      Preprocessor.fit_transform (H := toy_external)
        (Preprocessor.init None None) (py_dict (enumerate columns_mixed)) true
      = (Ok tbl, self')
      ∧ Preprocessor.reverse_transform self' tbl
        = Ok (py_dict (enumerate
                ((λ c, StrColumn (astype_str (H := toy_external) c))
                 <$> columns_mixed))).
Proof.
  assert (Forall (λ c, column_length c = 2) columns_mixed) as Hlen
    by (repeat constructor).
  split; [exact Hlen|].
  exact (preprocessor_categorical_round_trip (H := toy_external)
           None columns_mixed 2 Hlen).
Defined.

Lemma reverse_transform_with_accepted_metadata_witness :
  let self := Preprocessor.Build [1] (Some metadata_mixed) in
  check_metadata metadata_mixed = Ok ()
  ∧ match Preprocessor.reverse_transform self encoded_mixed with
    | Raise e => e ∈ [KeyError; IndexError; ValueError]
    | Ok df =>
        (∀ i, (num_features metadata_mixed ≤ i)%nat → df !! i = None)
        ∧ ∀ i, i < num_features metadata_mixed →
            ∃ block info,
              encoded_mixed !! fkey i = Some block
              ∧ details metadata_mixed !! i = Some info
              ∧ ((type_ info = "value"
                  ∧ ∃ c, MultiModalNumberTransformer.reverse_transform
                           Preprocessor.continous_transformer block info
                         = Ok c
                         ∧ df !! i = Some (NumColumn c))
                 ∨ (type_ info = "category"
                    ∧ ∃ c, CategoricalTransformer.reverse_transform block info
                           = Ok c
                           ∧ df !! i = Some (StrColumn c)))
    end.
Proof.
  intros self. split; [reflexivity|].
  exact (reverse_transform_with_accepted_metadata self metadata_mixed
           encoded_mixed eq_refl eq_refl).
Defined.

Lemma npdataflow_init_accepts_supported_types_witness :
  (∀ i, i < length (details metadata_unsupported) →
     is_Some (encoded_two !! fkey i))
  ∧ check_metadata metadata_unsupported = Raise AssertionError
  ∧ NpDataFlow.init (H := toy_overflow) (Transformed encoded_two)
      (Some metadata_unsupported) true
    = Raise ValueError.
Proof.
  assert (∀ i, i < length (details metadata_unsupported) →
            is_Some (encoded_two !! fkey i)) as Hkeys.
  { intros i Hi. cbn in Hi.
    destruct i as [|[|i]]; [by eexists|by eexists|lia]. }
  split; [exact Hkeys|]. split; [reflexivity|].
  exact (npdataflow_init_accepts_supported_types (H := toy_overflow)
           encoded_two metadata_unsupported true Hkeys).
Defined.

Lemma npdataflow_rows_witness :
  let bs := [Array2 1 [[0]; [1]]%Q;
             Array2 3 [[1 # 2; 1; 0]; [- (1 # 2); 0; 1]]%Q] in
  ∃ self,
    NpDataFlow.init (H := toy_overflow) (Transformed encoded_mixed)
      (Some metadata_mixed) false
    = Ok self
    ∧ NpDataFlow.size self = 2
    ∧ ∀ j, j < 2 →
        ∃ brs,
          Forall2 (λ b br, rows b !! j = Some br) bs brs
          ∧ NpDataFlow.data self !! j
            = Some (mjoin (zip_with row_parts (details metadata_mixed) brs)).
Proof.
  intros bs.
  assert (∃ self,
            NpDataFlow.init (H := toy_overflow) (Transformed encoded_mixed)
              (Some metadata_mixed) false = Ok self) as [self Hinit]
    by (eexists; vm_compute; reflexivity).
  exists self. split; [exact Hinit|].
  apply (npdataflow_rows (H := toy_overflow) encoded_mixed metadata_mixed
           false self bs 2 Hinit);
    [discriminate|reflexivity| |].
  - intros i b Hb. destruct i as [|[|i]]; cbn in Hb; [| |done];
      injection Hb as <-; split; reflexivity.
  - intros i info b Hinfo Hc Hb. destruct i as [|[|i]]; cbn in Hinfo, Hb;
      [| |done]; injection Hinfo as <-; injection Hb as <-.
    + repeat constructor.
    + discriminate Hc.
Defined.

Lemma npdataflow_get_data_witness :
  let self := NpDataFlow.Build true metadata_ab 1 [[[0%Q]]; [[1%Q]]; [[0%Q]]] in
  (∀ l : list nat, reverse l ≡ₚ l)
  ∧ ∃ out,
      NpDataFlow.get_data reverse self = Ok out
      ∧ out ≡ₚ NpDataFlow.data self
      ∧ (NpDataFlow.shuffle self = false → out = NpDataFlow.data self).
Proof.
  intros self. split; [apply reverse_Permutation|].
  exact (npdataflow_get_data reverse self reverse_Permutation).
Defined.

Lemma load_data_rows_witness :
  columns_mixed ≠ []
  ∧ Forall (λ c, column_length c = 2) columns_mixed
  ∧ ∃ ds,
      load_data (H := toy_external) (H0 := toy_overflow)
        (py_dict (enumerate columns_mixed)) (Some [1]) true None = Ok ds
      ∧ ∀ j, j < 2 →
          ∃ row,
            NpDataFlow.data (TGANDataset.dataflow ds) !! j = Some row
            ∧ Forall2 (λ c part, ∃ x code,
                         astype_str (H := toy_external) c !! j = Some x
                         ∧ np_unique (astype_str (H := toy_external) c) !! code
                           = Some x
                         ∧ part = [Q_of_nat code]) columns_mixed row.
Proof.
  assert (Forall (λ c, column_length c = 2) columns_mixed) as Hlen
    by (repeat constructor).
  split; [discriminate|]. split; [exact Hlen|].
  assert (∃ ds,
            load_data (H := toy_external) (H0 := toy_overflow)
              (py_dict (enumerate columns_mixed)) (Some [1]) true None
            = Ok ds) as [ds Hds]
    by (eexists; vm_compute; reflexivity).
  exists ds. split; [exact Hds|].
  apply (load_data_rows (H := toy_external) (H0 := toy_overflow)
           columns_mixed (Some [1]) None 2 ds);
    [discriminate|exact Hlen|reflexivity|exact Hds].
Defined.
